(** * notalib.date: week numbering and multi-format date parsing

    A shallow embedding of [notalib/date.py] together with the parts of
    the Python runtime it calls into ([datetime.date], [time.strftime],
    [int], exceptions), followed by the properties of the module's
    public functions. *)

From Stdlib Require Import ZArith String Ascii List Bool Lia.
From Stdlib Require DecimalString DecimalPos DecimalZ.
Import ListNotations.

Local Open Scope string_scope.
Local Open Scope list_scope.
Local Open Scope Z_scope.

(** ** Python exceptions and results *)

Module Py.

(** The exception classes that occur in the module and in the calls it
    makes.  [ParserError] is arrow's parse failure, a subclass of
    [ValueError]. *)
Inductive exn_class : Type :=
| ValueError
| ParserError
| TypeError
| NotImplementedError
| OverflowError.

Record exn : Type := mkExn { exn_cls : exn_class; exn_msg : string }.

(** [issubclass c ValueError], the test behind [except ValueError]. *)
Definition is_ValueError_class (c : exn_class) : bool :=
  match c with
  | ValueError | ParserError => true
  | _ => false
  end.

Definition is_ValueError (e : exn) : bool := is_ValueError_class (exn_cls e).

Definition is_TypeError (e : exn) : bool :=
  match exn_cls e with TypeError => true | _ => false end.

Definition is_NotImplementedError (e : exn) : bool :=
  match exn_cls e with NotImplementedError => true | _ => false end.

(** Outcome of evaluating a Python expression: a value or a raised
    exception. *)
Inductive result (A : Type) : Type :=
| Ok (a : A)
| Raise (e : exn).

Arguments Ok {A} a.
Arguments Raise {A} e.

Definition bind {A B : Type} (r : result A) (k : A -> result B) : result B :=
  match r with
  | Ok a => k a
  | Raise e => Raise e
  end.

Definition raises {A : Type} (r : result A) (p : exn -> bool) : Prop :=
  exists e, r = Raise e /\ p e = true.

(** *** Decimal digits: the fragment of [int] and of number formatting
    that the module exercises. *)

Definition digit_char (d : Z) : ascii := ascii_of_nat (48 + Z.to_nat d).

Definition digit_value (c : ascii) : option Z :=
  let n := Z.of_nat (nat_of_ascii c) in
  if (48 <=? n) && (n <=? 57) then Some (n - 48) else None.

Fixpoint digits_value (acc : Z) (s : string) : option Z :=
  match s with
  | EmptyString => Some acc
  | String c s' =>
      match digit_value c with
      | Some d => digits_value (10 * acc + d) s'
      | None => None
      end
  end.

(** [int(s)] on a string of decimal digits; anything else is rejected
    with [ValueError] (signs, blanks and underscores, which Python also
    accepts, never reach it from this module). *)
Definition int (s : string) : result Z :=
  match s with
  | EmptyString =>
      Raise (mkExn ValueError "invalid literal for int() with base 10: ''")
  | _ =>
      match digits_value 0 s with
      | Some n => Ok n
      | None =>
          Raise (mkExn ValueError
                   ("invalid literal for int() with base 10: '" ++ s ++ "'")%string)
      end
  end.

End Py.

Import Py.

Declare Scope py_scope.
Notation "x <- r ;; k" := (bind r (fun x => k))
  (at level 61, r at next level, right associativity) : py_scope.
Local Open Scope py_scope.

(** ** The calendar of [datetime.date] *)

Module Datetime.

Definition MINYEAR : Z := 1.
Definition MAXYEAR : Z := 9999.

Definition _DAYS_IN_MONTH : list Z :=
  [-1; 31; 28; 31; 30; 31; 30; 31; 31; 30; 31; 30; 31].

(** Built by the running sum over [_DAYS_IN_MONTH[1:]]. *)
Definition _DAYS_BEFORE_MONTH : list Z :=
  -1 :: fst (fold_left (fun '(out, dbm) dim => (out ++ [dbm], dbm + dim))
                       (tl _DAYS_IN_MONTH) ([], 0)).

Definition _is_leap (year : Z) : bool :=
  (year mod 4 =? 0) && (negb (year mod 100 =? 0) || (year mod 400 =? 0)).

Definition _days_before_year (year : Z) : Z :=
  let y := year - 1 in
  y * 365 + y / 4 - y / 100 + y / 400.

Definition _days_in_month (year month : Z) : Z :=
  if (month =? 2) && _is_leap year then 29
  else nth (Z.to_nat month) _DAYS_IN_MONTH (-1).

Definition _days_before_month (year month : Z) : Z :=
  nth (Z.to_nat month) _DAYS_BEFORE_MONTH (-1)
  + (if (2 <? month) && _is_leap year then 1 else 0).

Definition _ymd2ord (year month day : Z) : Z :=
  _days_before_year year + _days_before_month year month + day.

(** [_check_date_fields]: which complaint, if any, the constructor has. *)
Definition date_fields_error (year month day : Z) : option string :=
  if negb ((MINYEAR <=? year) && (year <=? MAXYEAR)) then
    Some ("year " ++ DecimalString.NilZero.string_of_int (Z.to_int year)
          ++ " is out of range")%string
  else if negb ((1 <=? month) && (month <=? 12)) then
    Some "month must be in 1..12"
  else if negb ((1 <=? day) && (day <=? _days_in_month year month)) then
    Some "day is out of range for month"
  else None.

Definition check_date_fields (year month day : Z) : bool :=
  match date_fields_error year month day with
  | None => true
  | Some _ => false
  end.

(** A [datetime.date] object: its three fields always passed the
    constructor's checks. *)
Record date : Type := mkdate {
  year : Z;
  month : Z;
  day : Z;
  date_ok : check_date_fields year month day = true
}.

(** [datetime.date(year, month, day)]. *)
Definition date_new (y m d : Z) : result date :=
  match bool_dec (check_date_fields y m d) true with
  | left H => Ok (mkdate y m d H)
  | right _ =>
      Raise (mkExn ValueError
               (match date_fields_error y m d with
                | Some msg => msg
                | None => ""
                end))
  end.

Definition toordinal (d : date) : Z := _ymd2ord (year d) (month d) (day d).

(** Monday is 0, Sunday is 6. *)
Definition weekday (d : date) : Z := (toordinal d + 6) mod 7.

(** The fields of [d.timetuple()] that week formatting reads:
    [tm_wday] (Monday 0) and [tm_yday] (January 1st is 1). *)
Record struct_time : Type := mk_struct_time {
  tm_year : Z; tm_mon : Z; tm_mday : Z; tm_wday : Z; tm_yday : Z
}.

Definition timetuple (d : date) : struct_time :=
  let wday := (_ymd2ord (year d) (month d) (day d) + 6) mod 7 in
  let dnum := _days_before_month (year d) (month d) + day d in
  mk_struct_time (year d) (month d) (day d) wday dnum.

(** [time.strftime] hands the tuple to C as a [struct tm]: Sunday
    becomes day 0 and the day of the year starts at 0. *)
Definition c_tm_wday (t : struct_time) : Z := (tm_wday t + 1) mod 7.
Definition c_tm_yday (t : struct_time) : Z := tm_yday t - 1.

(** The number C's [strftime] prints for [%W], in C's truncating
    integer arithmetic. *)
Definition week_W (t : struct_time) : Z :=
  Z.quot (c_tm_yday t - Z.rem (c_tm_wday t - 1 + 7) 7 + 7) 7.

(** Two decimal digits, zero padded. *)
Definition two_digits (n : Z) : string :=
  String (digit_char (n / 10)) (String (digit_char (n mod 10)) EmptyString).

(** [d.strftime('%W')]. *)
Definition strftime_W (d : date) : string := two_digits (week_W (timetuple d)).

(** A time of day and the two richer date-like classes; only their
    date part takes part in week extraction. *)
Record time : Type := mktime {
  hour : Z; minute : Z; second : Z; microsecond : Z
}.

Record datetime : Type := mkdatetime {
  dt_date : date;
  dt_time : time
}.

End Datetime.

Import Datetime.

(** ** arrow.Arrow *)

Record Arrow : Type := mkArrow {
  _datetime : datetime;
  tzinfo : string
}.

(** ** notalib.date *)

(** [DateLikeObject = Union[datetime.date, datetime.datetime, arrow.Arrow]] *)
Inductive DateLikeObject : Type :=
| OfDate (d : date)
| OfDatetime (dt : datetime)
| OfArrow (a : Arrow).

Definition date_part (o : DateLikeObject) : date :=
  match o with
  | OfDate d => d
  | OfDatetime dt => dt_date dt
  | OfArrow a => dt_date (_datetime a)
  end.

(** [date_object.year] and [date_object.strftime('%W')]. *)
Definition dl_year (o : DateLikeObject) : Z := year (date_part o).
Definition dl_strftime_W (o : DateLikeObject) : string := strftime_W (date_part o).

Record Week : Type := mkWeek { week : Z; year : Z }.

(** [Week.__str__] *)
Definition Week__str__ (self : Week) : string :=
  (DecimalString.NilZero.string_of_int (Z.to_int (week self)) ++ " week of "
   ++ DecimalString.NilZero.string_of_int (Z.to_int (year self)) ++ " year")%string.

Inductive WeekNumbering : Type :=
| NORMAL
| MATCH_YEAR.

(** The abstract class [WeekExtractor] and its two subclasses. *)
Class WeekExtractor : Type := { extract : DateLikeObject -> result Week }.

Definition MatchYearWeekExtractor : WeekExtractor :=
  {| extract := fun date_object =>
       w <- int (dl_strftime_W date_object) ;;
       Ok (mkWeek w (dl_year date_object)) |}.

Definition NormalWeekExtractor : WeekExtractor :=
  {| extract := fun date_object =>
       wk <- @extract MatchYearWeekExtractor date_object ;;
       if week wk =? 0 then
         (* Means that the week refers to the last week of the previous year *)
         d <- date_new (dl_year date_object - 1) 12 31 ;;
         @extract MatchYearWeekExtractor (OfDate d)
       else Ok wk |}.

(** The values a caller may pass for [mode]: Python does not enforce the
    annotation, so the argument ranges over members of the enumeration
    and over objects of other types, the last constructor standing for an
    instance of any further class with the text [str] gives for it. *)
Inductive py_value : Type :=
| PyNone
| PyBool (b : bool)
| PyInt (n : Z)
| PyStr (s : string)
| PyWeekNumbering (m : WeekNumbering)
| PyObject (class_name : string) (str : string).

Definition WeekNumbering_eqb (a b : WeekNumbering) : bool :=
  match a, b with
  | NORMAL, NORMAL | MATCH_YEAR, MATCH_YEAR => true
  | _, _ => false
  end.

Definition WeekNumbering_name (m : WeekNumbering) : string :=
  match m with
  | NORMAL => "NORMAL"
  | MATCH_YEAR => "MATCH_YEAR"
  end.

(** [isinstance(v, WeekNumbering)], with the member when it holds. *)
Definition as_WeekNumbering (v : py_value) : option WeekNumbering :=
  match v with
  | PyWeekNumbering m => Some m
  | _ => None
  end.

Definition isinstance_WeekNumbering (v : py_value) : bool :=
  match as_WeekNumbering v with Some _ => true | None => false end.

(** [str(v)], as an f-string interpolates it. *)
Definition py_str (v : py_value) : string :=
  match v with
  | PyNone => "None"
  | PyBool true => "True"
  | PyBool false => "False"
  | PyInt n => DecimalString.NilZero.string_of_int (Z.to_int n)
  | PyStr s => s
  | PyWeekNumbering m => "WeekNumbering." ++ WeekNumbering_name m
  | PyObject _ str => str
  end%string.

(** Modelled from the spec: the decorator of [notalib/deprecated.py] is
    not among the sources; the spec describes the deprecation marker as a
    documentation note, so the decorated function's arguments and outcome
    pass through unchanged. *)
Definition deprecated {F : Type} (message : string) (f : F) : F := f.

(** [get_week(date_object, mode=WeekNumbering.NORMAL)]; the second
    argument is [None] when the caller leaves [mode] out. *)
Definition get_week : DateLikeObject -> option py_value -> result Week :=
  deprecated
    "notalib: current get_week behavior is considered buggy and will be changed in 2.0."
    (fun date_object mode_arg =>
       let mode :=
         match mode_arg with
         | Some v => v
         | None => PyWeekNumbering NORMAL
         end in
       match as_WeekNumbering mode with
       | None =>
           Raise (mkExn TypeError
                    ("The mode " ++ py_str mode
                     ++ " does not belong to the WeekNumbering enumeration")%string)
       | Some m =>
           if WeekNumbering_eqb m NORMAL then
             @extract NormalWeekExtractor date_object
           else if WeekNumbering_eqb m MATCH_YEAR then
             @extract MatchYearWeekExtractor date_object
           else
             Raise (mkExn NotImplementedError
                      ("Extraction week number in mode " ++ WeekNumbering_name m
                       ++ " is not implemented")%string)
       end).

(** [DateFormats = Union[str, List[str], Tuple[str]]] *)
Inductive DateFormats : Type :=
| FormatStr (f : string)
| FormatList (fs : list string)
| FormatTuple (fs : list string).

(** Modelled from the spec: [ensure_iterable] of [notalib/array.py] is
    not among the sources; the spec speaks of one or more candidate
    format strings, so a single string stands for the one-element
    sequence and a list or tuple for its elements in order. *)
Definition ensure_iterable (x : DateFormats) : list string :=
  match x with
  | FormatStr f => [f]
  | FormatList fs => fs
  | FormatTuple fs => fs
  end.

Section DateParser.

(** The arrow library, as the module uses it: [arrow.get(s, f)] on an
    optional string and a format, and [a.format(f)]. *)
Variable arrow_get : option string -> string -> result Arrow.
Variable arrow_format : Arrow -> string -> string.

Definition arrow_year (a : Arrow) : Z := Datetime.year (dt_date (_datetime a)).
Definition arrow_month (a : Arrow) : Z := month (dt_date (_datetime a)).

Definition parse_month (yyyy_mm : string) : result (Z * Z) :=
  a <- arrow_get (Some yyyy_mm) "YYYY-M" ;;
  Ok (arrow_year a, arrow_month a).

Definition str_of_optional (s : option string) : string :=
  match s with
  | Some s => s
  | None => "None"
  end.

Definition no_format_error (s : option string) : exn :=
  mkExn ValueError
    ("Could not parse date `" ++ str_of_optional s
     ++ "` with any of the specified formats")%string.

(** The [for] loop of [parse_date] over the remaining formats.  Beside
    the outcome it returns the formats that were handed to [arrow.get],
    in call order. *)
Fixpoint parse_date_loop (s : option string) (formats : list string)
  : list string * result Arrow :=
  match formats with
  | [] => ([], Raise (no_format_error s))
  | f :: rest =>
      match arrow_get s f with
      | Ok a => ([f], Ok a)
      | Raise e =>
          if is_ValueError e then
            let (tried, r) := parse_date_loop s rest in (f :: tried, r)
          else ([f], Raise e)
      end
  end.

(** Format [f] fails to parse [s]: [arrow.get] raises a [ValueError],
    the one exception the loop catches. *)
Definition parse_fails (s : option string) (f : string) : Prop :=
  raises (arrow_get s f) is_ValueError.

Definition parse_date_calls (s : option string) (format_or_formats : DateFormats)
  : list string :=
  fst (parse_date_loop s (ensure_iterable format_or_formats)).

Definition parse_date (s : option string) (format_or_formats : DateFormats)
  : result Arrow :=
  snd (parse_date_loop s (ensure_iterable format_or_formats)).

Definition is_None (s : option string) : bool :=
  match s with None => true | Some _ => false end.

Definition normalize_date (s : option string) (input_formats : DateFormats)
           (output_format : string) (allow_empty : bool)
  : result (option string) :=
  if is_None s && allow_empty then Ok None
  else
    a <- parse_date s input_formats ;;
    Ok (Some (arrow_format a output_format)).

End DateParser.

(** ** The week-of-year index in words

    The reading of [%W] that the module documents: weeks start on Monday,
    the days of a year before its first Monday are week 0 and the first
    Monday opens week 1. *)

(** Day of January on which the first Monday of [y] falls. *)
Definition first_monday (y : Z) : Z :=
  1 + (7 - (_ymd2ord y 1 1 + 6) mod 7) mod 7.

Definition first_monday_ordinal (y : Z) : Z := _ymd2ord y 1 (first_monday y).

Definition spec_week_of_year (d : date) : Z :=
  if toordinal d <? first_monday_ordinal (Datetime.year d) then 0
  else (toordinal d - first_monday_ordinal (Datetime.year d)) / 7 + 1.

(** Ordinal of the Monday that opens the week of [d]. *)
Definition monday_of_week (d : date) : Z := toordinal d - weekday d.

(** Ordinal of December 31st of the year before [y]. *)
Definition last_day_of_previous_year (y : Z) : Z := _days_before_year y.

(** How a caller passes a member of the enumeration as [mode]. *)
Definition with_mode (m : WeekNumbering) : option py_value :=
  Some (PyWeekNumbering m).

(** Sample dates: [datetime.date(2018, 1, 1)], a Monday, and
    [datetime.date(2019, 1, 1)], a Tuesday. *)
Definition date_2018_01_01 : date := mkdate 2018 1 1 eq_refl.
Definition date_2019_01_01 : date := mkdate 2019 1 1 eq_refl.

(** ** Sample calls

    A stand-in for [arrow.get], used by the examples only: it answers the
    sample calls below the way arrow does (midnight UTC of the first day
    not given by the string), rejects every other string with arrow's
    [ParserError] and a missing string with [TypeError]. *)
Definition date_2021_05_01 : date := mkdate 2021 5 1 eq_refl.

Definition arrow_2021_05_01 : Arrow :=
  mkArrow (mkdatetime date_2021_05_01 (mktime 0 0 0 0)) "UTC".

Definition sample_arrow_get (s : option string) (f : string) : result Arrow :=
  match s with
  | None =>
      Raise (mkExn TypeError "Cannot parse two arguments of these types.")
  | Some str =>
      if ((str =? "2021-05-01") && (f =? "YYYY-MM-DD"))%string then
        Ok arrow_2021_05_01
      else if ((str =? "2021-5") && (f =? "YYYY-M"))%string then
        Ok arrow_2021_05_01
      else
        Raise (mkExn ParserError "Failed to match the format.")
  end.

(** A stand-in for [Arrow.format] that prints the year only. *)
Definition sample_arrow_format (a : Arrow) (f : string) : string :=
  DecimalString.NilZero.string_of_int (Z.to_int (arrow_year a)).

(** Chronological order on weeks: by year, then by number. *)
Definition Week_le (a b : Week) : Prop :=
  year a < year b \/ (year a = year b /\ week a <= week b).

(** Whether a blank occurs in a string. *)
Fixpoint has_space (s : string) : bool :=
  match s with
  | EmptyString => false
  | String c s' => Ascii.eqb c " " || has_space s'
  end.

(** ** arrow's parser on the format YYYY-M

    [arrow.get(s, 'YYYY-M')], in arrow since version 0.15, compiles the
    format to the regular expression [(?P<YYYY>\d{4})\-(?P<M>\d{1,2})], wrapped in arrow's
    starting and ending word boundaries, searches the string for it and
    builds the date-time of the first day of the month found.  A
    character is the code point of its number, 0 to 255. *)

Module ArrowParser.

(** [\d] *)
Definition is_digit (c : ascii) : bool :=
  match digit_value c with Some _ => true | None => false end.

(** [\s]: the white space among the code points below 256. *)
Definition is_space (c : ascii) : bool :=
  let n := nat_of_ascii c in
  (((9 <=? n) && (n <=? 13)) || ((28 <=? n) && (n <=? 32))
   || (n =? 133) || (n =? 160))%nat.

(** The punctuation marks arrow lets stand next to a date: comma, full
    stop, semicolon, colon, question and exclamation mark, the three
    quotes, brackets, braces, parentheses and angle brackets. *)
Definition punctuation : list ascii :=
  [","; "."; ";"; ":"; "?"; "!"; ascii_of_nat 34; "'"; "`";
   "["; "]"; "{"; "}"; "("; ")"; "<"; ">"]%char.

Definition is_punct (c : ascii) : bool := existsb (Ascii.eqb c) punctuation.

(** The starting boundary, on the two characters before the position
    ([p1] the nearer one): not two characters that are no white space,
    and no character that is neither punctuation nor white space.  The
    alternative of a word boundary or the start of the string that
    follows them in the expression holds wherever they hold and a digit
    comes next. *)
Definition start_boundary (p2 p1 : option ascii) : bool :=
  negb (match p2, p1 with
        | Some c2, Some c1 => negb (is_space c2) && negb (is_space c1)
        | _, _ => false
        end)
  && negb (match p1 with
           | Some c1 => negb (is_punct c1 || is_space c1)
           | None => false
           end).

(** [(?!\S)]: no character that is no white space comes next. *)
Definition no_text_next (r : string) : bool :=
  match r with
  | EmptyString => true
  | String c _ => is_space c
  end.

(** The ending boundary, a look-ahead: at most one punctuation mark,
    then no text. *)
Definition end_boundary (r : string) : bool :=
  match r with
  | String c r' => is_punct c && no_text_next r'
  | EmptyString => false
  end
  || no_text_next r.

(** The expression at the head of [r]: four digits, a hyphen, and two
    digits or, failing that, one, followed by the ending boundary.  The
    result is the text of the two groups. *)
Definition match_here (r : string) : option (string * string) :=
  match r with
  | String a (String b (String c (String d (String h (String m1 r2))))) =>
      if is_digit a && is_digit b && is_digit c && is_digit d
         && Ascii.eqb h "-" && is_digit m1
      then
        let yyyy := String a (String b (String c (String d EmptyString))) in
        match (match r2 with
               | String m2 r3 =>
                   if is_digit m2 && end_boundary r3
                   then Some (String m1 (String m2 EmptyString))
                   else None
               | EmptyString => None
               end) with
        | Some mm => Some (yyyy, mm)
        | None =>
            if end_boundary r2 then Some (yyyy, String m1 EmptyString)
            else None
        end
      else None
  | _ => None
  end.

(** [re.search]: the first position, from the left, where the starting
    boundary holds and the expression matches. *)
Fixpoint search (p2 p1 : option ascii) (r : string) : option (string * string) :=
  match (if start_boundary p2 p1 then match_here r else None) with
  | Some groups => Some groups
  | None =>
      match r with
      | EmptyString => None
      | String c r' => search p1 (Some c) r'
      end
  end.

(** [arrow.get(s, 'YYYY-M')]: the groups are read with [int] and handed
    to [datetime], with day 1, midnight and UTC for what the format does
    not give.  Without a match arrow raises its [ParserError]. *)
Definition get_YYYY_M (s : string) : result Arrow :=
  match search None None s with
  | None =>
      Raise (mkExn ParserError
               ("Failed to match 'YYYY-M' when parsing '" ++ s ++ "'.")%string)
  | Some (yyyy, mm) =>
      y <- int yyyy ;;
      m <- int mm ;;
      d <- date_new y m 1 ;;
      Ok (mkArrow (mkdatetime d (mktime 0 0 0 0)) "UTC")
  end.

End ArrowParser.

(** An [arrow.get] that parses the format YYYY-M as arrow does. *)
Definition parses_YYYY_M (arrow_get : option string -> string -> result Arrow)
  : Prop :=
  forall s, arrow_get (Some s) "YYYY-M" = ArrowParser.get_YYYY_M s.

(** An [arrow.get] that knows the format YYYY-M only; for a string it
    does not look at the format. *)
Definition arrow_get_YYYY_M_only (s : option string) (f : string) : result Arrow :=
  match s with
  | Some str => ArrowParser.get_YYYY_M str
  | None => Raise (mkExn TypeError "Cannot parse two arguments of these types.")
  end.

(** ** Matching the format YYYY-M in words

    A string matches when it holds a year of four digits, a hyphen and
    a month of one or two digits, set off from the text around them by
    white space or a single punctuation mark, the year and the month
    being ones of the calendar; the first such place counts. *)

Fixpoint all_digits (s : string) : bool :=
  match s with
  | EmptyString => true
  | String c s' => ArrowParser.is_digit c && all_digits s'
  end.

(** The two characters at the end of [pre], after [p2] and [p1]. *)
Fixpoint last_two (p2 p1 : option ascii) (pre : string)
  : option ascii * option ascii :=
  match pre with
  | EmptyString => (p2, p1)
  | String c pre' => last_two p1 (Some c) pre'
  end.

(** [s] reads [pre], the year [yyyy], a hyphen, the month [mm], [post],
    with the year and month set off from [pre] and [post]. *)
Definition occurs_at (p2 p1 : option ascii) (s pre yyyy mm post : string) : Prop :=
  s = (pre ++ yyyy ++ "-" ++ mm ++ post)%string
  /\ String.length yyyy = 4%nat /\ all_digits yyyy = true
  /\ (String.length mm = 1%nat \/ String.length mm = 2%nat)
  /\ all_digits mm = true
  /\ (let (q2, q1) := last_two p2 p1 pre in
      ArrowParser.start_boundary q2 q1 = true)
  /\ ArrowParser.end_boundary post = true.

Definition first_occurrence (s pre yyyy mm post : string) : Prop :=
  occurs_at None None s pre yyyy mm post
  /\ forall pre' yyyy' mm' post',
      occurs_at None None s pre' yyyy' mm' post' ->
      (String.length pre <= String.length pre')%nat.

(** [s] matches the format and encodes year [y] and month [m]. *)
Definition matches_YYYY_M (s : string) (y m : Z) : Prop :=
  exists pre yyyy mm post,
    first_occurrence s pre yyyy mm post
    /\ int yyyy = Ok y /\ int mm = Ok m
    /\ 1 <= y /\ 1 <= m <= 12.

(** ** Calendar facts *)

(** Looks up the month tables once the month is a literal. *)
Ltac eval_tables :=
  repeat match goal with
         | |- context [nth ?n ?t ?d] =>
             let v := eval vm_compute in (nth n t d) in
             change (nth n t d) with v
         | |- context [Z.eqb ?a ?b] =>
             let v := eval vm_compute in (Z.eqb a b) in
             match v with
             | true => change (Z.eqb a b) with true
             | false => change (Z.eqb a b) with false
             end
         | |- context [Z.ltb ?a ?b] =>
             let v := eval vm_compute in (Z.ltb a b) in
             match v with
             | true => change (Z.ltb a b) with true
             | false => change (Z.ltb a b) with false
             end
         end;
  cbn [andb].

Section CalendarFacts.

Lemma date_fields_bounds (d : date) :
  (1 <= Datetime.year d <= 9999) /\ (1 <= month d <= 12)
  /\ (1 <= day d <= _days_in_month (Datetime.year d) (month d)).
Proof.
  destruct d as [y m dd H]; cbn [Datetime.year month day].
  unfold check_date_fields, date_fields_error, MINYEAR, MAXYEAR in H.
  destruct ((1 <=? y) && (y <=? 9999)) eqn:Hy; cbn [negb] in H; [|discriminate].
  destruct ((1 <=? m) && (m <=? 12)) eqn:Hm; cbn [negb] in H; [|discriminate].
  destruct ((1 <=? dd) && (dd <=? _days_in_month y m)) eqn:Hd;
    cbn [negb] in H; [|discriminate].
  apply andb_true_iff in Hy, Hm, Hd.
  rewrite !Z.leb_le in Hy, Hm, Hd. lia.
Qed.

Lemma month_cases (m : Z) :
  1 <= m <= 12 ->
  m = 1 \/ m = 2 \/ m = 3 \/ m = 4 \/ m = 5 \/ m = 6 \/
  m = 7 \/ m = 8 \/ m = 9 \/ m = 10 \/ m = 11 \/ m = 12.
Proof. lia. Qed.

(** The day of the year of a date lies in 1..366. *)
Lemma yday_bounds (d : date) :
  1 <= _days_before_month (Datetime.year d) (month d) + day d <= 366.
Proof.
  destruct (date_fields_bounds d) as (_ & Hm & Hd).
  revert Hd. unfold _days_in_month, _days_before_month.
  destruct (month_cases _ Hm) as [E|[E|[E|[E|[E|[E|[E|[E|[E|[E|[E|E]]]]]]]]]]];
    rewrite E; destruct (_is_leap (Datetime.year d)); eval_tables; lia.
Qed.

Lemma check_date_fields_dec31 (y : Z) :
  1 <= y <= 9999 -> check_date_fields y 12 31 = true.
Proof.
  intros Hy. unfold check_date_fields, date_fields_error, MINYEAR, MAXYEAR.
  replace ((1 <=? y) && (y <=? 9999)) with true
    by (symmetry; apply andb_true_iff; rewrite !Z.leb_le; lia).
  reflexivity.
Qed.

Lemma date_new_ok (y m dd : Z) :
  check_date_fields y m dd = true ->
  exists d,
    date_new y m dd = Ok d
    /\ Datetime.year d = y /\ month d = m /\ day d = dd.
Proof.
  intros H. unfold date_new.
  destruct (bool_dec (check_date_fields y m dd) true) as [H'|H'];
    [|contradiction].
  eexists; repeat split.
Qed.

End CalendarFacts.

(** ** The [%W] week number *)

Section WeekNumber.

(** C's truncating formula, on the tuple Python builds, is the floor
    quotient of the day of the year shifted by the weekday. *)
Lemma week_W_floor (d : date) :
  week_W (timetuple d)
  = (_days_before_month (Datetime.year d) (month d) + day d + 6 - weekday d) / 7.
Proof.
  pose proof (yday_bounds d) as Hy.
  unfold week_W, c_tm_wday, c_tm_yday, timetuple, weekday, toordinal.
  cbn [tm_wday tm_yday].
  set (yd := _days_before_month (Datetime.year d) (month d) + day d) in *.
  set (o := _ymd2ord (Datetime.year d) (month d) (day d)).
  rewrite Z.rem_mod_nonneg by (try apply Z.le_refl; Z.div_mod_to_equations; lia).
  rewrite Z.quot_div_nonneg by (Z.div_mod_to_equations; lia).
  Z.div_mod_to_equations; lia.
Qed.

Lemma toordinal_split (d : date) :
  toordinal d
  = _days_before_year (Datetime.year d)
    + (_days_before_month (Datetime.year d) (month d) + day d).
Proof. unfold toordinal, _ymd2ord. lia. Qed.

Lemma ymd2ord_january (y k : Z) : _ymd2ord y 1 k = _days_before_year y + k.
Proof.
  unfold _ymd2ord, _days_before_month. eval_tables. lia.
Qed.

Lemma week_W_bounds (d : date) : 0 <= week_W (timetuple d) <= 53.
Proof.
  rewrite week_W_floor. pose proof (yday_bounds d). unfold weekday.
  Z.div_mod_to_equations; lia.
Qed.

(** The source's number is the index described in words. *)
Lemma week_W_week_of_year (d : date) :
  week_W (timetuple d) = spec_week_of_year d.
Proof.
  rewrite week_W_floor. pose proof (yday_bounds d) as Hy.
  unfold spec_week_of_year, first_monday_ordinal, first_monday, weekday.
  rewrite !ymd2ord_january, toordinal_split.
  set (yd := _days_before_month (Datetime.year d) (month d) + day d) in *.
  set (J := _days_before_year (Datetime.year d)).
  destruct (Z.ltb_spec (J + yd) (J + (1 + (7 - (J + 1 + 6) mod 7) mod 7)));
    Z.div_mod_to_equations; lia.
Qed.

Lemma week_W_zero_iff_before_first_monday (d : date) :
  week_W (timetuple d) = 0 <-> toordinal d < first_monday_ordinal (Datetime.year d).
Proof.
  rewrite week_W_week_of_year. unfold spec_week_of_year.
  destruct (Z.ltb_spec (toordinal d) (first_monday_ordinal (Datetime.year d))).
  - tauto.
  - split; [|lia]. Z.div_mod_to_equations; lia.
Qed.

Lemma week_W_zero_iff_week_opens_last_year (d : date) :
  week_W (timetuple d) = 0
  <-> monday_of_week d <= last_day_of_previous_year (Datetime.year d).
Proof.
  rewrite week_W_floor. pose proof (yday_bounds d) as Hy.
  unfold monday_of_week, last_day_of_previous_year, weekday.
  rewrite toordinal_split.
  set (yd := _days_before_month (Datetime.year d) (month d) + day d) in *.
  set (J := _days_before_year (Datetime.year d)).
  Z.div_mod_to_equations; lia.
Qed.

(** The first Monday is a Monday of the first seven days of January,
    and no earlier day of the year is one. *)
Lemma first_monday_is_first (y : Z) :
  1 <= first_monday y <= 7
  /\ (_ymd2ord y 1 (first_monday y) + 6) mod 7 = 0
  /\ forall k, 1 <= k < first_monday y -> (_ymd2ord y 1 k + 6) mod 7 <> 0.
Proof.
  unfold first_monday. rewrite !ymd2ord_january.
  set (J := _days_before_year y).
  repeat split; try (Z.div_mod_to_equations; lia).
  intros k Hk. rewrite ymd2ord_january. fold J.
  Z.div_mod_to_equations; lia.
Qed.

(** Within one year the number never decreases with the date. *)
Lemma week_W_monotone (d d' : date) :
  Datetime.year d = Datetime.year d' -> toordinal d <= toordinal d' ->
  week_W (timetuple d) <= week_W (timetuple d').
Proof.
  intros Hy Hle. rewrite !week_W_floor. unfold weekday.
  rewrite !toordinal_split in *. rewrite Hy in *.
  set (yd := _days_before_month (Datetime.year d') (month d) + day d) in *.
  set (yd' := _days_before_month (Datetime.year d') (month d') + day d') in *.
  set (J := _days_before_year (Datetime.year d')) in *.
  clearbody yd yd' J. clear Hy.
  assert (E : forall a, a + 6 - (J + a + 6) mod 7 = 7 * ((J + a + 6) / 7) - J)
    by (intros a; Z.div_mod_to_equations; lia).
  rewrite !E.
  apply Z.div_le_mono; [lia|].
  assert ((J + yd + 6) / 7 <= (J + yd' + 6) / 7)
    by (apply Z.div_le_mono; lia).
  lia.
Qed.

Example weekday_2018_01_01 :
  toordinal date_2018_01_01 = 736695 /\ weekday date_2018_01_01 = 0
  /\ strftime_W date_2018_01_01 = "01".
Proof. repeat split. Qed.

Example weekday_2019_01_01 :
  weekday date_2019_01_01 = 1 /\ strftime_W date_2019_01_01 = "00".
Proof. repeat split. Qed.

(** No date of year 1 is in week 0: the year starts on a Monday. *)
Lemma week_W_year_one (d : date) :
  Datetime.year d = 1 -> 1 <= week_W (timetuple d).
Proof.
  intros Hy. rewrite week_W_floor. pose proof (yday_bounds d) as Hb.
  unfold weekday. rewrite toordinal_split, Hy in *.
  change (_days_before_year 1) with 0.
  Z.div_mod_to_equations; lia.
Qed.

(** December 31st is in week 52 or 53. *)
Lemma week_W_dec31 (d : date) :
  month d = 12 -> day d = 31 -> 52 <= week_W (timetuple d).
Proof.
  intros Hm Hd. rewrite week_W_floor. unfold weekday.
  rewrite toordinal_split, Hm, Hd.
  unfold _days_before_month. destruct (_is_leap (Datetime.year d)); eval_tables;
    Z.div_mod_to_equations; lia.
Qed.

End WeekNumber.

(** ** Week extraction *)

Section WeekExtraction.

Lemma digit_roundtrip (q : Z) : 0 <= q <= 9 -> digit_value (digit_char q) = Some q.
Proof.
  intros H.
  assert (q = 0 \/ q = 1 \/ q = 2 \/ q = 3 \/ q = 4 \/
          q = 5 \/ q = 6 \/ q = 7 \/ q = 8 \/ q = 9) as C by lia.
  repeat (destruct C as [C|C]; [subst q; reflexivity|]).
  subst q; reflexivity.
Qed.

(** [int] reads back what the two-digit formatting printed. *)
Lemma int_two_digits (n : Z) : 0 <= n <= 99 -> int (two_digits n) = Ok n.
Proof.
  intros H. unfold two_digits, int. cbn [digits_value].
  rewrite !digit_roundtrip by (Z.div_mod_to_equations; lia).
  f_equal. Z.div_mod_to_equations; lia.
Qed.

Lemma MatchYear_extract_eq (o : DateLikeObject) :
  @extract MatchYearWeekExtractor o
  = Ok (mkWeek (week_W (timetuple (date_part o))) (dl_year o)).
Proof.
  cbn [extract MatchYearWeekExtractor]. unfold dl_strftime_W, strftime_W.
  rewrite int_two_digits by (pose proof (week_W_bounds (date_part o)); lia).
  reflexivity.
Qed.

Lemma Normal_extract_nonzero (o : DateLikeObject) :
  week_W (timetuple (date_part o)) <> 0 ->
  @extract NormalWeekExtractor o = @extract MatchYearWeekExtractor o.
Proof.
  intros H. cbn [extract NormalWeekExtractor].
  rewrite MatchYear_extract_eq. cbn [bind week].
  destruct (Z.eqb_spec (week_W (timetuple (date_part o))) 0); [contradiction|reflexivity].
Qed.

(** In week 0 the fallback date exists and its extraction is the
    result. *)
Lemma Normal_extract_zero (o : DateLikeObject) :
  week_W (timetuple (date_part o)) = 0 ->
  exists d31,
    date_new (dl_year o - 1) 12 31 = Ok d31
    /\ Datetime.year d31 = dl_year o - 1 /\ month d31 = 12 /\ day d31 = 31
    /\ @extract NormalWeekExtractor o = @extract MatchYearWeekExtractor (OfDate d31).
Proof.
  intros H.
  assert (Hy : 2 <= dl_year o <= 9999).
  { unfold dl_year. pose proof (date_fields_bounds (date_part o)) as (Hb & _).
    destruct (Z.eq_dec (Datetime.year (date_part o)) 1) as [E|E]; [|lia].
    pose proof (week_W_year_one _ E). lia. }
  destruct (date_new_ok (dl_year o - 1) 12 31) as (d31 & Hnew & Hf).
  { apply check_date_fields_dec31. lia. }
  exists d31. split; [exact Hnew|]. repeat split; try apply Hf.
  cbn [extract NormalWeekExtractor].
  change (w <- int (dl_strftime_W o) ;; Ok (mkWeek w (dl_year o)))
    with (@extract MatchYearWeekExtractor o).
  rewrite MatchYear_extract_eq. cbn [bind week]. rewrite H.
  cbn [Z.eqb]. rewrite Hnew. reflexivity.
Qed.

(** Normal extraction always returns, and never week 0. *)
Lemma Normal_extract_positive (o : DateLikeObject) :
  exists wk, @extract NormalWeekExtractor o = Ok wk /\ 1 <= week wk.
Proof.
  destruct (Z.eq_dec (week_W (timetuple (date_part o))) 0) as [H0|H0].
  - destruct (Normal_extract_zero o H0) as (d31 & _ & _ & Hm & Hd & ->).
    rewrite MatchYear_extract_eq. eexists; split; [reflexivity|].
    cbn [week date_part].
    pose proof (week_W_dec31 d31 Hm Hd). lia.
  - rewrite (Normal_extract_nonzero o H0), MatchYear_extract_eq.
    eexists; split; [reflexivity|]. cbn [week].
    pose proof (week_W_bounds (date_part o)). lia.
Qed.

End WeekExtraction.

(** ** get_week *)

Section GetWeek.

Lemma get_week_NORMAL (o : DateLikeObject) :
  get_week o (with_mode NORMAL) = @extract NormalWeekExtractor o.
Proof. reflexivity. Qed.

Lemma get_week_MATCH_YEAR (o : DateLikeObject) :
  get_week o (with_mode MATCH_YEAR) = @extract MatchYearWeekExtractor o.
Proof. reflexivity. Qed.

(** C1: for every date, [get_week] in mode NORMAL, that is
    [NormalWeekExtractor.extract], returns a week whose number is at
    least 1, never 0. *)
Theorem normal_week_never_zero (o : DateLikeObject) :
  exists wk,
    get_week o (with_mode NORMAL) = Ok wk
    /\ @extract NormalWeekExtractor o = Ok wk
    /\ 1 <= week wk.
Proof.
  rewrite get_week_NORMAL.
  destruct (Normal_extract_positive o) as (wk & Hk & Hpos).
  exists wk. auto.
Qed.

(** C2, as stated: on 2018-01-01 mode MATCH_YEAR would give week 0 of
    2018 and mode NORMAL week 53 of 2017.  The code gives neither. *)
Lemma get_week_2018_01_01_not_as_stated :
  ~ (get_week (OfDate date_2018_01_01) (with_mode MATCH_YEAR) = Ok (mkWeek 0 2018)
     /\ get_week (OfDate date_2018_01_01) (with_mode NORMAL) = Ok (mkWeek 53 2017)).
Proof. intros [H _]. vm_compute in H. discriminate H. Qed.

(** C2, amended: 2018-01-01 is a Monday, so both modes return week 1
    of 2018 and no fallback takes place; the pair week 0 / week 53 of
    the previous year is what the two modes return one year later, on
    2019-01-01. *)
Theorem get_week_new_year_examples :
  get_week (OfDate date_2018_01_01) (with_mode MATCH_YEAR) = Ok (mkWeek 1 2018)
  /\ get_week (OfDate date_2018_01_01) (with_mode NORMAL) = Ok (mkWeek 1 2018)
  /\ get_week (OfDate date_2019_01_01) (with_mode MATCH_YEAR) = Ok (mkWeek 0 2019)
  /\ get_week (OfDate date_2019_01_01) (with_mode NORMAL) = Ok (mkWeek 53 2018).
Proof. repeat split; vm_compute; reflexivity. Qed.

(** C3: mode NORMAL agrees with mode MATCH_YEAR when the MATCH_YEAR
    week number is not 0; when it is 0, mode NORMAL returns the
    MATCH_YEAR extraction of December 31st of the previous year, whose
    year field is the date's year minus one. *)
Theorem normal_is_match_year_with_fallback (o : DateLikeObject) :
  exists wk,
    get_week o (with_mode MATCH_YEAR) = Ok wk
    /\ (week wk <> 0 -> get_week o (with_mode NORMAL) = Ok wk)
    /\ (week wk = 0 ->
        exists d31,
          date_new (dl_year o - 1) 12 31 = Ok d31
          /\ get_week o (with_mode NORMAL)
             = get_week (OfDate d31) (with_mode MATCH_YEAR)
          /\ exists w, get_week o (with_mode NORMAL) = Ok (mkWeek w (dl_year o - 1))).
Proof.
  rewrite get_week_MATCH_YEAR, get_week_NORMAL, MatchYear_extract_eq.
  eexists; split; [reflexivity|]. cbn [week]. split.
  - intros H. rewrite (Normal_extract_nonzero o H). apply MatchYear_extract_eq.
  - intros H. destruct (Normal_extract_zero o H) as (d31 & Hnew & Hy & _ & _ & E).
    exists d31. rewrite get_week_MATCH_YEAR. repeat split; try assumption.
    rewrite E, MatchYear_extract_eq. unfold dl_year at 1. cbn [date_part].
    rewrite Hy. eexists; reflexivity.
Qed.

(** C4: mode MATCH_YEAR returns the date's own year together with its
    Monday-first week-of-year index: the number [%W] prints, between 0
    and 53, never decreasing through the year from January 1st on, and
    0 exactly for the dates before the year's first Monday, whose week
    opened in the previous year. *)
Theorem match_year_week_of_year (o : DateLikeObject) :
  exists w,
    get_week o (with_mode MATCH_YEAR) = Ok (mkWeek w (dl_year o))
    /\ w = spec_week_of_year (date_part o)
    /\ 0 <= w <= 53
    /\ (w = 0 <-> toordinal (date_part o) < first_monday_ordinal (dl_year o))
    /\ (w = 0 <->
        monday_of_week (date_part o) <= last_day_of_previous_year (dl_year o))
    /\ (forall o', dl_year o' = dl_year o ->
                   toordinal (date_part o') <= toordinal (date_part o) ->
                   exists w', get_week o' (with_mode MATCH_YEAR)
                              = Ok (mkWeek w' (dl_year o)) /\ w' <= w).
Proof.
  rewrite get_week_MATCH_YEAR, MatchYear_extract_eq.
  eexists; split; [reflexivity|]. unfold dl_year.
  split; [apply week_W_week_of_year|].
  split; [apply week_W_bounds|].
  split; [apply week_W_zero_iff_before_first_monday|].
  split; [apply week_W_zero_iff_week_opens_last_year|].
  intros o' Hy Hle. rewrite get_week_MATCH_YEAR, MatchYear_extract_eq.
  unfold dl_year in *. rewrite Hy. eexists; split; [reflexivity|].
  now apply week_W_monotone.
Qed.

(** C7: [get_week] raises [TypeError] for every [mode] that is not a
    member of [WeekNumbering], whatever the date, and raises it for no
    other call: not for a member, and not when [mode] is left out. *)
Theorem get_week_TypeError_iff_not_member (o : DateLikeObject) :
  (forall mode, isinstance_WeekNumbering mode = false ->
                raises (get_week o (Some mode)) is_TypeError)
  /\ (forall mode_arg, raises (get_week o mode_arg) is_TypeError ->
                       exists mode, mode_arg = Some mode
                                    /\ isinstance_WeekNumbering mode = false).
Proof.
  split.
  - intros mode H. unfold isinstance_WeekNumbering in H.
    unfold get_week, deprecated, raises.
    destruct (as_WeekNumbering mode); [discriminate|].
    eexists; split; reflexivity.
  - intros mode_arg (e & He & Hty).
    assert (Hmember : forall m, get_week o (with_mode m) <> Raise e).
    { intros m Hr. destruct m.
      + destruct (Normal_extract_positive o) as (wk & Hk & _).
        rewrite get_week_NORMAL, Hk in Hr. discriminate.
      + rewrite get_week_MATCH_YEAR, MatchYear_extract_eq in Hr. discriminate. }
    destruct mode_arg as [mode|].
    + exists mode. split; [reflexivity|].
      destruct mode; try reflexivity. exfalso. exact (Hmember m He).
    + exfalso. exact (Hmember NORMAL He).
Qed.

(** C8: the enumeration has exactly the two members NORMAL and
    MATCH_YEAR, and for each of them and every date [get_week] returns
    a week; it never raises [NotImplementedError]. *)
Theorem get_week_member_never_NotImplementedError :
  (forall m : WeekNumbering, m = NORMAL \/ m = MATCH_YEAR)
  /\ forall (o : DateLikeObject) (m : WeekNumbering),
      (exists wk, get_week o (with_mode m) = Ok wk)
      /\ ~ raises (get_week o (with_mode m)) is_NotImplementedError.
Proof.
  split; [intros []; auto|].
  intros o m.
  assert (H : exists wk, get_week o (with_mode m) = Ok wk).
  { destruct m.
    - rewrite get_week_NORMAL.
      destruct (Normal_extract_positive o) as (wk & Hk & _). eauto.
    - rewrite get_week_MATCH_YEAR, MatchYear_extract_eq. eauto. }
  split; [exact H|].
  destruct H as (wk & Hk). intros (e & He & _). congruence.
Qed.

(** C10: a call that leaves [mode] out is a call in mode NORMAL, the
    mode with the previous-year fallback. *)
Theorem get_week_default_mode_is_NORMAL (o : DateLikeObject) :
  get_week o None = get_week o (with_mode NORMAL)
  /\ get_week o None = @extract NormalWeekExtractor o.
Proof. split; reflexivity. Qed.

(** The message of the [TypeError] names the offending value. *)
Example get_week_mode_1 :
  get_week (OfDate date_2019_01_01) (Some (PyInt 1))
  = Raise (mkExn TypeError
             "The mode 1 does not belong to the WeekNumbering enumeration").
Proof. reflexivity. Qed.

End GetWeek.

(** ** Parsing with several formats *)

Section SampleCalls.

Example parse_date_sample_succeeds :
  parse_date sample_arrow_get (Some "2021-05-01") (FormatList ["YYYY-MM-DD"])
  = Ok arrow_2021_05_01.
Proof. reflexivity. Qed.

Example parse_date_sample_fails :
  parse_date sample_arrow_get (Some "bad") (FormatList ["YYYY-MM-DD"])
  = Raise (mkExn ValueError
             "Could not parse date `bad` with any of the specified formats").
Proof. reflexivity. Qed.

Example parse_date_second_format :
  parse_date sample_arrow_get (Some "2021-05-01")
             (FormatTuple ["DD.MM.YYYY"; "YYYY-MM-DD"; "YYYY"])
  = Ok arrow_2021_05_01
  /\ parse_date_calls sample_arrow_get (Some "2021-05-01")
                      (FormatTuple ["DD.MM.YYYY"; "YYYY-MM-DD"; "YYYY"])
     = ["DD.MM.YYYY"; "YYYY-MM-DD"].
Proof. split; reflexivity. Qed.

Example parse_date_single_format :
  parse_date sample_arrow_get (Some "2021-05-01") (FormatStr "YYYY-MM-DD")
  = Ok arrow_2021_05_01.
Proof. reflexivity. Qed.

Example normalize_date_sample :
  normalize_date sample_arrow_get sample_arrow_format
                 (Some "2021-05-01") (FormatList ["YYYY-MM-DD"]) "YYYY" true
  = Ok (Some "2021")
  /\ normalize_date sample_arrow_get sample_arrow_format
                    None (FormatList ["YYYY-MM-DD"]) "YYYY" true
     = Ok None.
Proof. split; reflexivity. Qed.

Example parse_month_sample :
  parse_month sample_arrow_get "2021-5" = Ok (2021, 5).
Proof. reflexivity. Qed.

End SampleCalls.

Section DateParserFacts.

Variable arrow_get : option string -> string -> result Arrow.
Variable arrow_format : Arrow -> string -> string.


Lemma fails_dec (s : option string) (f : string) :
  {parse_fails arrow_get s f} + {~ parse_fails arrow_get s f}.
Proof.
  unfold parse_fails, raises. destruct (arrow_get s f) as [a|e].
  - right. intros (e & He & _). discriminate.
  - destruct (is_ValueError e) eqn:Hv.
    + left. eauto.
    + right. intros (e' & He & Hv'). congruence.
Qed.

(** Either every format fails, or there is a first one that does not. *)
Lemma first_not_failing (s : option string) (fs : list string) :
  Forall (parse_fails arrow_get s) fs
  \/ exists pre f post,
      fs = pre ++ f :: post
      /\ Forall (parse_fails arrow_get s) pre /\ ~ parse_fails arrow_get s f.
Proof.
  induction fs as [|g fs IH].
  - left. constructor.
  - destruct (fails_dec s g) as [Hg|Hg].
    + destruct IH as [IH|(pre & f & post & -> & Hpre & Hf)].
      * left. now constructor.
      * right. exists (g :: pre), f, post. repeat split; auto.
    + right. exists [], g, fs. repeat split; auto.
Qed.

(** The loop stops at the first format that does not fail, with that
    format's outcome, having called [arrow.get] on it and on the
    formats before it. *)
Lemma parse_date_loop_first (s : option string) (pre post : list string) (f : string) :
  Forall (parse_fails arrow_get s) pre -> ~ parse_fails arrow_get s f ->
  parse_date_loop arrow_get s (pre ++ f :: post) = (pre ++ [f], arrow_get s f).
Proof.
  intros Hpre Hf. induction Hpre as [|g pre (e & Hg & Hv) _ IH]; cbn.
  - destruct (arrow_get s f) as [a|e] eqn:E; [reflexivity|].
    destruct (is_ValueError e) eqn:Hv; [|reflexivity].
    exfalso. apply Hf. exists e. rewrite E. auto.
  - rewrite Hg, Hv, IH. reflexivity.
Qed.

(** When every format fails the loop has tried them all and raises its
    own error. *)
Lemma parse_date_loop_exhausted (s : option string) (fs : list string) :
  Forall (parse_fails arrow_get s) fs ->
  parse_date_loop arrow_get s fs = (fs, Raise (no_format_error s)).
Proof.
  induction 1 as [|g fs (e & Hg & Hv) _ IH]; cbn.
  - reflexivity.
  - rewrite Hg, Hv, IH. reflexivity.
Qed.

Lemma parse_date_ValueError_iff (s : option string) (fs : list string) :
  raises (snd (parse_date_loop arrow_get s fs)) is_ValueError
  <-> Forall (parse_fails arrow_get s) fs.
Proof.
  split.
  - intros Hr.
    destruct (first_not_failing s fs) as [H|(pre & f & post & -> & Hpre & Hf)];
      [exact H|].
    rewrite (parse_date_loop_first s pre post f Hpre Hf) in Hr.
    contradiction.
  - intros H. rewrite (parse_date_loop_exhausted s fs H).
    eexists; split; reflexivity.
Qed.


(** C5: [parse_date] returns what the first format that parses the
    string returns, the formats being tried in the given order and no
    further; it raises a [ValueError] exactly when every candidate
    fails to parse the string, and then it is the error saying that no
    format matched, raised once every candidate has been tried. *)
Theorem parse_date_first_success (s : string) (formats : DateFormats) :
  (forall pre f post,
      ensure_iterable formats = pre ++ f :: post ->
      Forall (parse_fails arrow_get (Some s)) pre ->
      ~ parse_fails arrow_get (Some s) f ->
      parse_date arrow_get (Some s) formats = arrow_get (Some s) f
      /\ parse_date_calls arrow_get (Some s) formats = pre ++ [f])
  /\ (forall a,
        parse_date arrow_get (Some s) formats = Ok a ->
        exists pre f post,
          ensure_iterable formats = pre ++ f :: post
          /\ Forall (parse_fails arrow_get (Some s)) pre
          /\ arrow_get (Some s) f = Ok a
          /\ parse_date_calls arrow_get (Some s) formats = pre ++ [f])
  /\ (raises (parse_date arrow_get (Some s) formats) is_ValueError
      <-> Forall (parse_fails arrow_get (Some s)) (ensure_iterable formats))
  /\ (raises (parse_date arrow_get (Some s) formats) is_ValueError ->
      parse_date arrow_get (Some s) formats = Raise (no_format_error (Some s))
      /\ parse_date_calls arrow_get (Some s) formats = ensure_iterable formats).
Proof.
  unfold parse_date, parse_date_calls.
  set (fs := ensure_iterable formats). clearbody fs.
  repeat split.
  - subst fs. now rewrite parse_date_loop_first.
  - subst fs. now rewrite parse_date_loop_first.
  - intros a Ha.
    destruct (first_not_failing (Some s) fs)
      as [H|(pre & f & post & -> & Hpre & Hf)].
    + rewrite (parse_date_loop_exhausted _ _ H) in Ha. discriminate.
    + rewrite (parse_date_loop_first _ pre post f Hpre Hf) in *.
      exists pre, f, post. auto.
  - apply parse_date_ValueError_iff.
  - apply parse_date_ValueError_iff.
  - apply parse_date_ValueError_iff in H.
    now rewrite parse_date_loop_exhausted.
  - apply parse_date_ValueError_iff in H.
    now rewrite parse_date_loop_exhausted.
Qed.

(** C6: [normalize_date] returns [None] for a [None] input when empty
    input is allowed; for a string it returns the date [parse_date]
    finds, formatted with the output format, and where [parse_date]
    raises, in particular when no input format parses the string, it
    raises the same exception. *)
Theorem normalize_date_parse_then_format
        (input_formats : DateFormats) (output_format : string) :
  normalize_date arrow_get arrow_format None input_formats output_format true
  = Ok None
  /\ forall (s : string) (allow_empty : bool),
      normalize_date arrow_get arrow_format
                     (Some s) input_formats output_format allow_empty
      = match parse_date arrow_get (Some s) input_formats with
        | Ok a => Ok (Some (arrow_format a output_format))
        | Raise e => Raise e
        end
      /\ (Forall (parse_fails arrow_get (Some s)) (ensure_iterable input_formats) ->
          normalize_date arrow_get arrow_format
                         (Some s) input_formats output_format allow_empty
          = Raise (no_format_error (Some s))).
Proof.
  split; [reflexivity|]. intros s allow_empty.
  unfold normalize_date. cbn [is_None andb].
  split; [reflexivity|].
  intros H. unfold parse_date.
  rewrite (parse_date_loop_exhausted _ _ H). reflexivity.
Qed.

End DateParserFacts.

(** ** parse_month and the format YYYY-M *)

Section ParseMonth.

Import ArrowParser.

Lemma digit_value_bounds (c : ascii) (v : Z) :
  digit_value c = Some v -> 0 <= v <= 9.
Proof.
  unfold digit_value.
  destruct ((48 <=? Z.of_nat (nat_of_ascii c))
            && (Z.of_nat (nat_of_ascii c) <=? 57)) eqn:E; [|discriminate].
  apply andb_true_iff in E. rewrite !Z.leb_le in E. intros [= <-]. lia.
Qed.

Lemma is_digit_value (c : ascii) :
  is_digit c = true -> exists v, digit_value c = Some v /\ 0 <= v <= 9.
Proof.
  unfold is_digit. destruct (digit_value c) as [v|] eqn:E; [|discriminate].
  intros _. exists v. split; [reflexivity|]. exact (digit_value_bounds c v E).
Qed.

(** A digit is neither white space nor punctuation, so no boundary
    holds in front of one. *)
Lemma digit_no_boundary (c : ascii) (r : string) :
  is_digit c = true -> end_boundary (String c r) = false.
Proof.
  destruct c as [[] [] [] [] [] [] [] []]; vm_compute; intros H;
    try discriminate H; reflexivity.
Qed.

Lemma all_digits_cons (c : ascii) (s : string) :
  all_digits (String c s) = true -> is_digit c = true /\ all_digits s = true.
Proof. cbn. apply andb_true_iff. Qed.

(** Four digits read as a number up to 9999, one or two as one up to 99. *)
Lemma int_four_digits (yyyy : string) :
  String.length yyyy = 4%nat -> all_digits yyyy = true ->
  exists y, int yyyy = Ok y /\ 0 <= y <= 9999.
Proof.
  destruct yyyy as [|a [|b [|c [|d [|e r]]]]]; try discriminate. intros _ H.
  apply all_digits_cons in H. destruct H as [Ha H].
  apply all_digits_cons in H. destruct H as [Hb H].
  apply all_digits_cons in H. destruct H as [Hc H].
  apply all_digits_cons in H. destruct H as [Hd _].
  destruct (is_digit_value a Ha) as (va & Ea & Ba).
  destruct (is_digit_value b Hb) as (vb & Eb & Bb).
  destruct (is_digit_value c Hc) as (vc & Ec & Bc).
  destruct (is_digit_value d Hd) as (vd & Ed & Bd).
  unfold int. cbn [digits_value]. rewrite Ea, Eb, Ec, Ed.
  eexists; split; [reflexivity|]. lia.
Qed.

Lemma int_month_digits (mm : string) :
  String.length mm = 1%nat \/ String.length mm = 2%nat ->
  all_digits mm = true ->
  exists m, int mm = Ok m /\ 0 <= m <= 99.
Proof.
  destruct mm as [|a [|b [|c r]]]; intros [L|L]; try discriminate; intros H.
  - apply all_digits_cons in H. destruct H as [Ha _].
    destruct (is_digit_value a Ha) as (va & Ea & Ba).
    unfold int. cbn [digits_value]. rewrite Ea.
    eexists; split; [reflexivity|]. lia.
  - apply all_digits_cons in H. destruct H as [Ha H].
    apply all_digits_cons in H. destruct H as [Hb _].
    destruct (is_digit_value a Ha) as (va & Ea & Ba).
    destruct (is_digit_value b Hb) as (vb & Eb & Bb).
    unfold int. cbn [digits_value]. rewrite Ea, Eb.
    eexists; split; [reflexivity|]. lia.
Qed.

Lemma int_raises_ValueError (s : string) (e : exn) :
  int s = Raise e -> is_ValueError e = true.
Proof.
  unfold int. destruct s; [intros [= <-]; reflexivity|].
  destruct (digits_value 0 (String a s)); [discriminate|].
  intros [= <-]. reflexivity.
Qed.

Lemma date_new_raises_ValueError (y m d : Z) (e : exn) :
  date_new y m d = Raise e -> is_ValueError e = true.
Proof.
  unfold date_new. destruct (bool_dec (check_date_fields y m d) true);
    [discriminate|]. intros [= <-]. reflexivity.
Qed.

Lemma check_date_fields_first_day (y m : Z) :
  1 <= y <= 9999 -> 1 <= m <= 12 -> check_date_fields y m 1 = true.
Proof.
  intros Hy Hm. unfold check_date_fields, date_fields_error, MINYEAR, MAXYEAR.
  replace ((1 <=? y) && (y <=? 9999)) with true
    by (symmetry; apply andb_true_iff; rewrite !Z.leb_le; lia).
  replace ((1 <=? m) && (m <=? 12)) with true
    by (symmetry; apply andb_true_iff; rewrite !Z.leb_le; lia).
  cbn [negb].
  replace ((1 <=? 1) && (1 <=? _days_in_month y m)) with true; [reflexivity|].
  symmetry. apply andb_true_iff. rewrite !Z.leb_le. split; [lia|].
  unfold _days_in_month.
  destruct (month_cases _ Hm) as [E|[E|[E|[E|[E|[E|[E|[E|[E|[E|[E|E]]]]]]]]]]];
    rewrite E; destruct (_is_leap y); eval_tables; lia.
Qed.

(** What [match_here] finds is a year and a month at the head of the
    string, followed by the ending boundary. *)
Lemma match_here_sound (r yyyy mm : string) :
  match_here r = Some (yyyy, mm) ->
  exists post,
    r = (yyyy ++ "-" ++ mm ++ post)%string
    /\ String.length yyyy = 4%nat /\ all_digits yyyy = true
    /\ (String.length mm = 1%nat \/ String.length mm = 2%nat)
    /\ all_digits mm = true
    /\ end_boundary post = true.
Proof.
  destruct r as [|a [|b [|c [|d [|h [|m1 r2]]]]]]; try discriminate.
  cbn [match_here].
  destruct (is_digit a) eqn:Ha; cbn [andb]; [|discriminate].
  destruct (is_digit b) eqn:Hb; cbn [andb]; [|discriminate].
  destruct (is_digit c) eqn:Hc; cbn [andb]; [|discriminate].
  destruct (is_digit d) eqn:Hd; cbn [andb]; [|discriminate].
  destruct (Ascii.eqb_spec h "-") as [->|]; cbn [andb]; [|discriminate].
  destruct (is_digit m1) eqn:Hm1; [|discriminate].
  assert (One : end_boundary r2 = true ->
                exists post,
                  String a (String b (String c (String d (String "-" (String m1 r2)))))
                  = (String a (String b (String c (String d EmptyString)))
                     ++ "-" ++ String m1 EmptyString ++ post)%string
                  /\ 4%nat = 4%nat
                  /\ all_digits (String a (String b (String c (String d EmptyString))))
                     = true
                  /\ (1%nat = 1%nat \/ 1%nat = 2%nat)
                  /\ all_digits (String m1 EmptyString) = true
                  /\ end_boundary post = true).
  { intros He. exists r2. cbn. rewrite Ha, Hb, Hc, Hd, Hm1. repeat split; auto. }
  destruct r2 as [|m2 r3].
  - destruct (end_boundary EmptyString) eqn:He; [|discriminate].
    intros [= <- <-]. apply One. first [exact He|reflexivity].
  - destruct (is_digit m2 && end_boundary r3) eqn:Two.
    + intros [= <- <-]. apply andb_true_iff in Two. destruct Two as [Hm2 He].
      exists r3. cbn. rewrite Ha, Hb, Hc, Hd, Hm1, Hm2. repeat split; auto.
    + destruct (end_boundary (String m2 r3)) eqn:He; [|discriminate].
      intros [= <- <-]. apply One. first [exact He|reflexivity].
Qed.

(** A year and a month at the head of the string, followed by the
    ending boundary, are what [match_here] finds: of one digit of the
    month or two, only one choice meets the boundary. *)
Lemma match_here_complete (yyyy mm post : string) :
  String.length yyyy = 4%nat -> all_digits yyyy = true ->
  String.length mm = 1%nat \/ String.length mm = 2%nat ->
  all_digits mm = true ->
  end_boundary post = true ->
  match_here (yyyy ++ "-" ++ mm ++ post)%string = Some (yyyy, mm).
Proof.
  destruct yyyy as [|a [|b [|c [|d [|e r]]]]]; try discriminate. intros _ H.
  apply all_digits_cons in H. destruct H as [Ha H].
  apply all_digits_cons in H. destruct H as [Hb H].
  apply all_digits_cons in H. destruct H as [Hc H].
  apply all_digits_cons in H. destruct H as [Hd _].
  destruct mm as [|m1 [|m2 [|m3 r]]]; intros [L|L]; try discriminate;
    intros H He.
  - apply all_digits_cons in H. destruct H as [Hm1 _].
    cbn. rewrite Ha, Hb, Hc, Hd, Hm1. cbn [andb].
    destruct post as [|p post'].
    + rewrite He. reflexivity.
    + destruct (is_digit p) eqn:Hp.
      * rewrite (digit_no_boundary p post' Hp) in He. discriminate.
      * cbn [andb]. rewrite He. reflexivity.
  - apply all_digits_cons in H. destruct H as [Hm1 H].
    apply all_digits_cons in H. destruct H as [Hm2 _].
    cbn. rewrite Ha, Hb, Hc, Hd, Hm1, Hm2. cbn [andb]. rewrite He. reflexivity.
Qed.

Lemma append_nil_r (s : string) : (s ++ "")%string = s.
Proof. induction s; cbn; congruence. Qed.

Lemma append_same_length (p q r t : string) :
  (p ++ r)%string = (q ++ t)%string -> String.length p = String.length q ->
  p = q /\ r = t.
Proof.
  revert q. induction p as [|c p IH]; intros [|c' q]; cbn; try discriminate.
  - auto.
  - intros [= -> E] [= L]. destruct (IH q E L) as (-> & ->). auto.
Qed.

(** An occurrence with nothing before it is a match at the head. *)
Lemma occurs_at_head (p2 p1 : option ascii) (r yyyy mm post : string) :
  occurs_at p2 p1 r "" yyyy mm post
  <-> start_boundary p2 p1 = true /\ match_here r = Some (yyyy, mm)
      /\ r = (yyyy ++ "-" ++ mm ++ post)%string.
Proof.
  unfold occurs_at. cbn [last_two append]. split.
  - intros (-> & Ly & Dy & Lm & Dm & Hs & He).
    repeat split; auto. now apply match_here_complete.
  - intros (Hs & Hm & E).
    destruct (match_here_sound r yyyy mm Hm) as (post' & E' & Ly & Dy & Lm & Dm & He).
    assert (post' = post).
    { rewrite E in E'.
      apply append_same_length in E'; [|reflexivity]. destruct E' as (_ & E').
      cbn in E'. injection E' as E'.
      apply append_same_length in E'; [|reflexivity].
      destruct E' as (_ & E'). now symmetry. }
    subst post'. repeat split; auto.
Qed.

(** An occurrence after a first character is an occurrence in the rest. *)
Lemma occurs_at_tail (p2 p1 : option ascii) (c : ascii)
      (r pre yyyy mm post : string) :
  occurs_at p2 p1 (String c r) (String c pre) yyyy mm post
  <-> occurs_at p1 (Some c) r pre yyyy mm post.
Proof.
  unfold occurs_at. cbn [last_two append]. split.
  - intros ([= E] & H). split; [exact E|exact H].
  - intros (E & H). split; [now rewrite E|exact H].
Qed.

Lemma occurs_at_first_char (p2 p1 : option ascii) (c c' : ascii)
      (r pre yyyy mm post : string) :
  occurs_at p2 p1 (String c r) (String c' pre) yyyy mm post -> c' = c.
Proof. unfold occurs_at. cbn [append]. intros ([= -> _] & _). reflexivity. Qed.

Lemma occurs_at_nonempty (p2 p1 : option ascii) (pre yyyy mm post : string) :
  ~ occurs_at p2 p1 "" pre yyyy mm post.
Proof.
  unfold occurs_at. intros (E & Ly & _).
  destruct pre; [|discriminate]. destruct yyyy; discriminate.
Qed.

(** [search] returns the groups of the first occurrence. *)
Lemma search_found (r : string) :
  forall (p2 p1 : option ascii) (yyyy mm : string),
    search p2 p1 r = Some (yyyy, mm) ->
    exists pre post,
      occurs_at p2 p1 r pre yyyy mm post
      /\ forall pre' yyyy' mm' post',
          occurs_at p2 p1 r pre' yyyy' mm' post' ->
          (String.length pre <= String.length pre')%nat.
Proof.
  induction r as [|c r IH]; intros p2 p1 yyyy mm.
  - cbn. destruct (start_boundary p2 p1); discriminate.
  - cbn [search].
    destruct (if start_boundary p2 p1 then match_here (String c r) else None)
      as [[y0 m0]|] eqn:Here.
    + intros [= -> ->].
      destruct (start_boundary p2 p1) eqn:Hs; [|discriminate].
      destruct (match_here_sound _ _ _ Here) as (post & E & _).
      exists EmptyString, post. split.
      * apply occurs_at_head. auto.
      * intros. cbn. apply Nat.le_0_l.
    + intros Hr. destruct (IH _ _ _ _ Hr) as (pre & post & Hocc & Hmin).
      exists (String c pre), post. split.
      * now apply occurs_at_tail.
      * intros [|c' pre'] yyyy' mm' post' Hocc'.
        -- apply occurs_at_head in Hocc'. destruct Hocc' as (Hs & Hm & _).
           rewrite Hs, Hm in Here. discriminate.
        -- pose proof (occurs_at_first_char _ _ _ _ _ _ _ _ _ Hocc'). subst c'.
           apply occurs_at_tail in Hocc'. cbn. apply le_n_S. eauto.
Qed.

(** [search] finds nothing only where nothing occurs. *)
Lemma search_nothing (r : string) :
  forall (p2 p1 : option ascii),
    search p2 p1 r = None ->
    forall pre yyyy mm post, ~ occurs_at p2 p1 r pre yyyy mm post.
Proof.
  induction r as [|c r IH]; intros p2 p1 Hr pre yyyy mm post Hocc.
  - exact (occurs_at_nonempty _ _ _ _ _ _ Hocc).
  - cbn [search] in Hr.
    destruct (if start_boundary p2 p1 then match_here (String c r) else None)
      as [[y0 m0]|] eqn:Here; [discriminate|].
    destruct pre as [|c' pre].
    + apply occurs_at_head in Hocc. destruct Hocc as (Hs & Hm & _).
      rewrite Hs, Hm in Here. discriminate.
    + pose proof (occurs_at_first_char _ _ _ _ _ _ _ _ _ Hocc). subst c'.
      apply occurs_at_tail in Hocc. exact (IH _ _ Hr _ _ _ _ Hocc).
Qed.

(** The first occurrence is the one [search] returns. *)
Lemma search_first_occurrence (s pre yyyy mm post : string) :
  first_occurrence s pre yyyy mm post -> search None None s = Some (yyyy, mm).
Proof.
  intros (Hocc & Hmin).
  destruct (search None None s) as [[y2 m2]|] eqn:Hs.
  - destruct (search_found s None None y2 m2 Hs) as (pre2 & post2 & Hocc2 & Hmin2).
    pose proof (Hmin _ _ _ _ Hocc2) as L1. pose proof (Hmin2 _ _ _ _ Hocc) as L2.
    destruct Hocc as (E & Ly & Dy & Lm & Dm & _ & He).
    destruct Hocc2 as (E2 & Ly2 & Dy2 & Lm2 & Dm2 & _ & He2).
    rewrite E in E2. apply append_same_length in E2; [|lia].
    destruct E2 as (_ & E2).
    pose proof (match_here_complete yyyy mm post Ly Dy Lm Dm He) as M1.
    pose proof (match_here_complete y2 m2 post2 Ly2 Dy2 Lm2 Dm2 He2) as M2.
    rewrite E2, M2 in M1. now injection M1 as -> ->.
  - exfalso. exact (search_nothing s None None Hs _ _ _ _ Hocc).
Qed.

(** [arrow.get] on the format either builds the first day of the month
    that [search] found or raises a [ValueError]: arrow's own when
    nothing is found, that of [datetime] for a year or month that does
    not exist. *)
Lemma get_YYYY_M_cases (s : string) :
  (exists yyyy mm y m d,
      search None None s = Some (yyyy, mm)
      /\ int yyyy = Ok y /\ int mm = Ok m /\ date_new y m 1 = Ok d
      /\ get_YYYY_M s = Ok (mkArrow (mkdatetime d (mktime 0 0 0 0)) "UTC"))
  \/ raises (get_YYYY_M s) is_ValueError.
Proof.
  unfold get_YYYY_M, raises.
  destruct (search None None s) as [[yyyy mm]|] eqn:Hs.
  - destruct (int yyyy) as [y|e] eqn:Hy; cbn [bind].
    + destruct (int mm) as [m|e] eqn:Hm; cbn [bind].
      * destruct (date_new y m 1) as [d|e] eqn:Hd; cbn [bind].
        -- left. exists yyyy, mm, y, m, d. auto.
        -- right. exists e. split; [reflexivity|].
           exact (date_new_raises_ValueError _ _ _ _ Hd).
      * right. exists e. split; [reflexivity|].
        exact (int_raises_ValueError _ _ Hm).
    + right. exists e. split; [reflexivity|].
      exact (int_raises_ValueError _ _ Hy).
  - right. eexists. split; reflexivity.
Qed.

Lemma date_new_fields (y m dd : Z) (d : date) :
  date_new y m dd = Ok d ->
  Datetime.year d = y /\ month d = m /\ day d = dd.
Proof.
  unfold date_new. destruct (bool_dec (check_date_fields y m dd) true);
    [|discriminate]. intros [= <-]. auto.
Qed.

Section WithArrow.

Variable arrow_get : option string -> string -> result Arrow.
Hypothesis arrow_get_YYYY_M : parses_YYYY_M arrow_get.

Lemma parse_month_Ok_iff (yyyy_mm : string) (y m : Z) :
  parse_month arrow_get yyyy_mm = Ok (y, m) <-> matches_YYYY_M yyyy_mm y m.
Proof.
  unfold parse_month. rewrite arrow_get_YYYY_M. split.
  - destruct (get_YYYY_M_cases yyyy_mm)
      as [(yyyy & mm & y' & m' & d & Hs & Hy & Hm & Hd & ->)|(e & -> & _)];
      [|discriminate].
    intros H. cbn in H. destruct (date_new_fields _ _ _ _ Hd) as (Ey & Em & _).
    unfold arrow_year, arrow_month in H. cbn in H. rewrite Ey, Em in H.
    injection H as <- <-.
    destruct (search_found _ _ _ _ _ Hs) as (pre & post & Hocc & Hmin).
    exists pre, yyyy, mm, post.
    pose proof (date_fields_bounds d) as (By & Bm & _). rewrite Ey in By.
    rewrite Em in Bm. split; [split; assumption|]. repeat split; auto; lia.
  - intros (pre & yyyy & mm & post & Hfirst & Hy & Hm & By & Bm).
    pose proof (search_first_occurrence _ _ _ _ _ Hfirst) as Hs.
    destruct Hfirst as ((_ & Ly & Dy & _) & _).
    destruct (int_four_digits yyyy Ly Dy) as (y' & Hy' & By').
    rewrite Hy in Hy'. injection Hy' as <-.
    destruct (date_new_ok y m 1) as (d & Hd & Ey & Em & _).
    { apply check_date_fields_first_day; lia. }
    unfold get_YYYY_M. rewrite Hs, Hy, Hm. cbn [bind]. rewrite Hd. cbn.
    unfold arrow_year, arrow_month. cbn. now rewrite Ey, Em.
Qed.

Lemma parse_month_Ok_or_ValueError (yyyy_mm : string) :
  (exists y m, parse_month arrow_get yyyy_mm = Ok (y, m))
  \/ raises (parse_month arrow_get yyyy_mm) is_ValueError.
Proof.
  unfold parse_month. rewrite arrow_get_YYYY_M.
  destruct (get_YYYY_M_cases yyyy_mm)
    as [(yyyy & mm & y' & m' & d & _ & _ & _ & _ & ->)|(e & -> & He)].
  - left. eexists _, _. reflexivity.
  - right. exists e. split; [reflexivity|exact He].
Qed.

End WithArrow.



(** What the parser makes of some strings: a padded month, a date set
    off by white space and punctuation inside a sentence; and, raising,
    text without a date, a month and a year that do not exist, a longer
    date, and a date glued to a letter. *)
Example parse_month_samples :
  parse_month arrow_get_YYYY_M_only "2021-5" = Ok (2021, 5)
  /\ parse_month arrow_get_YYYY_M_only "2021-05" = Ok (2021, 5)
  /\ parse_month arrow_get_YYYY_M_only "in 2021-12, then" = Ok (2021, 12)
  /\ parse_month arrow_get_YYYY_M_only "bad"
     = Raise (mkExn ParserError "Failed to match 'YYYY-M' when parsing 'bad'.")
  /\ parse_month arrow_get_YYYY_M_only "2021-13"
     = Raise (mkExn ValueError "month must be in 1..12")
  /\ parse_month arrow_get_YYYY_M_only "0000-1"
     = Raise (mkExn ValueError "year 0 is out of range")
  /\ raises (parse_month arrow_get_YYYY_M_only "2021-05-01") is_ValueError
  /\ raises (parse_month arrow_get_YYYY_M_only "x2021-5") is_ValueError.
Proof.
  repeat split; try reflexivity; eexists; split; reflexivity.
Qed.

End ParseMonth.

(** ** Weeks of the calendar

    What the two numberings say about the Monday-to-Sunday weeks of the
    calendar, a week being named by the ordinal of its Monday. *)

Section CalendarWeeks.

Lemma days_before_year_next (y : Z) :
  _days_before_year (y + 1)
  = _days_before_year y + 365 + (if _is_leap y then 1 else 0).
Proof.
  unfold _days_before_year, _is_leap.
  replace (y + 1 - 1) with y by lia.
  destruct (Z.eqb_spec (y mod 4) 0), (Z.eqb_spec (y mod 100) 0),
    (Z.eqb_spec (y mod 400) 0); cbn [andb orb negb];
    Z.div_mod_to_equations; lia.
Qed.

Lemma days_before_year_mono (a b : Z) :
  a <= b -> _days_before_year a <= _days_before_year b.
Proof.
  intros H. unfold _days_before_year. Z.div_mod_to_equations; lia.
Qed.

(** The day of the year does not pass the length of the year. *)
Lemma yday_le_year_length (d : date) :
  _days_before_month (Datetime.year d) (month d) + day d
  <= 365 + (if _is_leap (Datetime.year d) then 1 else 0).
Proof.
  destruct (date_fields_bounds d) as (_ & Hm & Hd).
  revert Hd. unfold _days_in_month, _days_before_month.
  destruct (month_cases _ Hm) as [E|[E|[E|[E|[E|[E|[E|[E|[E|[E|[E|E]]]]]]]]]]];
    rewrite E; destruct (_is_leap (Datetime.year d)); eval_tables; lia.
Qed.

Lemma toordinal_within_year (d : date) :
  _days_before_year (Datetime.year d) < toordinal d
  <= _days_before_year (Datetime.year d + 1).
Proof.
  rewrite days_before_year_next, toordinal_split.
  pose proof (yday_bounds d). pose proof (yday_le_year_length d). lia.
Qed.

Lemma monday_of_week_spec (d : date) :
  (monday_of_week d + 6) mod 7 = 0
  /\ monday_of_week d <= toordinal d < monday_of_week d + 7.
Proof.
  unfold monday_of_week, weekday. Z.div_mod_to_equations; lia.
Qed.

(** The [%W] number counts the Mondays of the year up to the week's own. *)
Lemma week_W_monday (d : date) :
  week_W (timetuple d)
  = (monday_of_week d - _days_before_year (Datetime.year d) + 6) / 7.
Proof.
  rewrite week_W_floor. unfold monday_of_week. rewrite toordinal_split.
  f_equal. lia.
Qed.

Lemma toordinal_dec31 (d : date) :
  month d = 12 -> day d = 31 ->
  toordinal d = _days_before_year (Datetime.year d + 1).
Proof.
  intros Hm Hd. rewrite days_before_year_next, toordinal_split, Hm, Hd.
  unfold _days_before_month. destruct (_is_leap (Datetime.year d));
    eval_tables; lia.
Qed.

(** Normal extraction names the week by its Monday: the year is the
    year the Monday falls in and the number is the Monday's rank among
    the Mondays of that year. *)
Lemma Normal_extract_monday (o : DateLikeObject) :
  exists wk,
    @extract NormalWeekExtractor o = Ok wk
    /\ _days_before_year (year wk) < monday_of_week (date_part o)
       <= _days_before_year (year wk + 1)
    /\ week wk
       = (monday_of_week (date_part o) - _days_before_year (year wk) + 6) / 7.
Proof.
  set (d := date_part o).
  pose proof (monday_of_week_spec d) as (Hmon & Hlo & Hhi).
  pose proof (toordinal_within_year d) as (Hin1 & Hin2).
  destruct (Z.eq_dec (week_W (timetuple d)) 0) as [H0|H0].
  - destruct (Normal_extract_zero o H0) as (d31 & _ & Hy & Hm & Hd & ->).
    rewrite MatchYear_extract_eq. eexists; split; [reflexivity|].
    unfold dl_year in *. cbn [week year date_part]. fold d in Hy |- *.
    rewrite Hy.
    pose proof (toordinal_dec31 d31 Hm Hd) as H31.
    pose proof (monday_of_week_spec d31) as (Hmon' & Hlo' & Hhi').
    rewrite Hy in H31. replace (Datetime.year d - 1 + 1) with (Datetime.year d)
      in * by lia.
    apply week_W_zero_iff_week_opens_last_year in H0.
    unfold last_day_of_previous_year in H0. fold d in H0.
    pose proof (week_W_dec31 d31 Hm Hd) as H52.
    rewrite week_W_monday, Hy in *.
    assert (E : monday_of_week d31 = monday_of_week d)
      by (Z.div_mod_to_equations; lia).
    rewrite E in *. repeat split; try lia.
    Z.div_mod_to_equations; lia.
  - rewrite (Normal_extract_nonzero o H0), MatchYear_extract_eq.
    eexists; split; [reflexivity|]. cbn [week year]. unfold dl_year. fold d.
    rewrite week_W_monday in *. repeat split; try lia.
    Z.div_mod_to_equations; lia.
Qed.

Lemma yday_first_days (d : date) :
  _days_before_month (Datetime.year d) (month d) + day d <= 31 ->
  month d = 1 /\ _days_before_month (Datetime.year d) (month d) = 0.
Proof.
  destruct (date_fields_bounds d) as (_ & Hm & Hd).
  revert Hd. unfold _days_in_month, _days_before_month.
  destruct (month_cases _ Hm) as [E|[E|[E|[E|[E|[E|[E|[E|[E|[E|[E|E]]]]]]]]]]];
    rewrite E; destruct (_is_leap (Datetime.year d)); eval_tables; lia.
Qed.

Lemma yday_last_days (d : date) :
  365 <= _days_before_month (Datetime.year d) (month d) + day d ->
  month d = 12 /\ 30 <= day d.
Proof.
  destruct (date_fields_bounds d) as (_ & Hm & Hd).
  revert Hd. unfold _days_in_month, _days_before_month.
  destruct (month_cases _ Hm) as [E|[E|[E|[E|[E|[E|[E|[E|[E|[E|[E|E]]]]]]]]]]];
    rewrite E; destruct (_is_leap (Datetime.year d)); eval_tables; lia.
Qed.

Lemma Week_eq (a b : Week) : week a = week b -> year a = year b -> a = b.
Proof. destruct a, b; cbn; intros -> ->; reflexivity. Qed.

(** X1: In mode NORMAL the week number lies in 1..53 and the year is the
    date's own or the one before; the year before is returned only for
    one of the first six days of January, with week 52 or 53. *)
Theorem normal_week_range (o : DateLikeObject) :
  exists wk,
    get_week o (with_mode NORMAL) = Ok wk
    /\ 1 <= week wk <= 53
    /\ (year wk = dl_year o
        \/ (year wk = dl_year o - 1 /\ 52 <= week wk
            /\ month (date_part o) = 1 /\ day (date_part o) <= 6)).
Proof.
  rewrite get_week_NORMAL. set (d := date_part o).
  destruct (Z.eq_dec (week_W (timetuple d)) 0) as [H0|H0].
  - destruct (Normal_extract_zero o H0) as (d31 & _ & Hy & Hm & Hd & ->).
    rewrite MatchYear_extract_eq. eexists; split; [reflexivity|].
    unfold dl_year. cbn [week year date_part]. fold d.
    pose proof (week_W_dec31 d31 Hm Hd). pose proof (week_W_bounds d31).
    split; [lia|]. right. unfold dl_year in Hy. fold d in Hy.
    rewrite week_W_floor in H0. pose proof (yday_bounds d) as Hb.
    assert (Hs : _days_before_month (Datetime.year d) (month d) + day d <= 6)
      by (unfold weekday in H0; Z.div_mod_to_equations; lia).
    destruct (yday_first_days d) as (Hm1 & Hz); [lia|].
    repeat split; try lia.
  - rewrite (Normal_extract_nonzero o H0), MatchYear_extract_eq.
    eexists; split; [reflexivity|]. cbn [week year].
    pose proof (week_W_bounds d). fold d. split; [lia|]. left. reflexivity.
Qed.

(** X2: The two modes return different weeks exactly for the days of January
    before the year's first Monday, at most six days a year. *)
Theorem modes_differ_iff_before_first_monday (o : DateLikeObject) :
  (get_week o (with_mode NORMAL) <> get_week o (with_mode MATCH_YEAR)
   <-> month (date_part o) = 1
       /\ day (date_part o) < first_monday (dl_year o))
  /\ 1 <= first_monday (dl_year o) <= 7.
Proof.
  split; [|apply first_monday_is_first].
  rewrite get_week_NORMAL, get_week_MATCH_YEAR. set (d := date_part o).
  unfold dl_year. fold d.
  pose proof (week_W_zero_iff_before_first_monday d) as Hz.
  unfold first_monday_ordinal in Hz. rewrite ymd2ord_january, toordinal_split in Hz.
  pose proof (first_monday_is_first (Datetime.year d)) as (Hfm & _).
  pose proof (yday_bounds d) as Hb.
  split.
  - intros Hne.
    destruct (Z.eq_dec (week_W (timetuple d)) 0) as [H0|H0].
    + apply Hz in H0. destruct (yday_first_days d) as (Hm1 & Hdb); [lia|].
      split; [exact Hm1|lia].
    + exfalso. apply Hne. apply (Normal_extract_nonzero o H0).
  - intros (Hm1 & Hday) Heq.
    assert (Hdb : _days_before_month (Datetime.year d) (month d) = 0)
      by (rewrite Hm1; unfold _days_before_month; eval_tables; lia).
    assert (H0 : week_W (timetuple d) = 0) by (apply Hz; lia).
    destruct (Normal_extract_positive o) as (wk & Hk & Hpos).
    rewrite Hk, MatchYear_extract_eq in Heq. fold d in Heq.
    injection Heq as ->. cbn [week] in Hpos. lia.
Qed.

(** X3: In mode NORMAL two dates get the same week exactly when they lie in
    the same Monday-to-Sunday week of the calendar, also across a change
    of year. *)
Theorem normal_same_week_iff_same_calendar_week (o1 o2 : DateLikeObject) :
  get_week o1 (with_mode NORMAL) = get_week o2 (with_mode NORMAL)
  <-> monday_of_week (date_part o1) = monday_of_week (date_part o2).
Proof.
  rewrite !get_week_NORMAL.
  destruct (Normal_extract_monday o1) as (wk1 & -> & (Hlo1 & Hhi1) & Hw1).
  destruct (Normal_extract_monday o2) as (wk2 & -> & (Hlo2 & Hhi2) & Hw2).
  pose proof (monday_of_week_spec (date_part o1)) as (Hm1 & _).
  pose proof (monday_of_week_spec (date_part o2)) as (Hm2 & _).
  set (M1 := monday_of_week (date_part o1)) in *.
  set (M2 := monday_of_week (date_part o2)) in *.
  clearbody M1 M2.
  split.
  - intros [= <-]. set (J := _days_before_year (year wk1)) in *. clearbody J.
    rewrite Hw1 in Hw2. Z.div_mod_to_equations; lia.
  - intros <-. f_equal.
    assert (Hy : year wk1 = year wk2).
    { destruct (Z.lt_trichotomy (year wk1) (year wk2)) as [L|[E|L]]; [|exact E|].
      - pose proof (days_before_year_mono (year wk1 + 1) (year wk2)). lia.
      - pose proof (days_before_year_mono (year wk2 + 1) (year wk1)). lia. }
    apply Week_eq; [|exact Hy]. rewrite Hw1, Hw2, Hy. reflexivity.
Qed.

(** X4: In mode MATCH_YEAR two dates get the same week exactly when they are
    in the same year and in the same calendar week: a week that contains
    January 1st is split between the two years. *)
Theorem match_year_same_week_iff (o1 o2 : DateLikeObject) :
  get_week o1 (with_mode MATCH_YEAR) = get_week o2 (with_mode MATCH_YEAR)
  <-> dl_year o1 = dl_year o2
      /\ monday_of_week (date_part o1) = monday_of_week (date_part o2).
Proof.
  rewrite !get_week_MATCH_YEAR, !MatchYear_extract_eq, !week_W_monday.
  unfold dl_year.
  pose proof (monday_of_week_spec (date_part o1)) as (Hm1 & _ & Hh1).
  pose proof (monday_of_week_spec (date_part o2)) as (Hm2 & _ & Hh2).
  pose proof (toordinal_within_year (date_part o1)) as (Hl1 & _).
  pose proof (toordinal_within_year (date_part o2)) as (Hl2 & _).
  set (M1 := monday_of_week (date_part o1)) in *.
  set (M2 := monday_of_week (date_part o2)) in *.
  set (y1 := Datetime.year (date_part o1)) in *.
  set (y2 := Datetime.year (date_part o2)) in *.
  clearbody M1 M2 y1 y2.
  split.
  - intros [= Hw <-]. split; [reflexivity|].
    set (J := _days_before_year y1) in *. clearbody J.
    Z.div_mod_to_equations; lia.
  - intros (<- & <-). reflexivity.
Qed.

(** X5: Mode NORMAL orders weeks as the calendar does: by year and number,
    the week of one date is at most the week of another exactly when its
    Monday is not later, so a later date never gets an earlier week. *)
Theorem normal_week_chronological (o1 o2 : DateLikeObject) :
  exists wk1 wk2,
    get_week o1 (with_mode NORMAL) = Ok wk1
    /\ get_week o2 (with_mode NORMAL) = Ok wk2
    /\ (Week_le wk1 wk2
        <-> monday_of_week (date_part o1) <= monday_of_week (date_part o2))
    /\ (toordinal (date_part o1) <= toordinal (date_part o2) -> Week_le wk1 wk2).
Proof.
  rewrite !get_week_NORMAL.
  destruct (Normal_extract_monday o1) as (wk1 & -> & (Hlo1 & Hhi1) & Hw1).
  destruct (Normal_extract_monday o2) as (wk2 & -> & (Hlo2 & Hhi2) & Hw2).
  exists wk1, wk2. split; [reflexivity|]. split; [reflexivity|].
  assert (Hiff : Week_le wk1 wk2
                 <-> monday_of_week (date_part o1) <= monday_of_week (date_part o2)).
  { pose proof (monday_of_week_spec (date_part o1)) as (Hm1 & _).
    pose proof (monday_of_week_spec (date_part o2)) as (Hm2 & _).
    set (M1 := monday_of_week (date_part o1)) in *.
    set (M2 := monday_of_week (date_part o2)) in *.
    clearbody M1 M2. unfold Week_le.
    destruct (Z.lt_trichotomy (year wk1) (year wk2)) as [L|[E|L]].
    - pose proof (days_before_year_mono (year wk1 + 1) (year wk2)). lia.
    - rewrite E in *. set (J := _days_before_year (year wk2)) in *. clearbody J.
      rewrite Hw1, Hw2. split.
      + intros [Hlt|[_ Hle]]; [lia|]. Z.div_mod_to_equations; lia.
      + intros Hle. right. split; [reflexivity|]. apply Z.div_le_mono; lia.
    - pose proof (days_before_year_mono (year wk2 + 1) (year wk1)). lia. }
  split; [exact Hiff|].
  intros Hord. apply Hiff. unfold monday_of_week, weekday.
  Z.div_mod_to_equations; lia.
Qed.

(** X6: Week 53 of mode MATCH_YEAR is at most two days long: it holds only
    December 30th or 31st, on a Monday or a Tuesday. *)
Theorem match_year_week_53_last_days (o : DateLikeObject) :
  exists wk,
    get_week o (with_mode MATCH_YEAR) = Ok wk
    /\ (week wk = 53 ->
        month (date_part o) = 12 /\ 30 <= day (date_part o)
        /\ weekday (date_part o) <= 1).
Proof.
  rewrite get_week_MATCH_YEAR, MatchYear_extract_eq.
  eexists; split; [reflexivity|]. cbn [week]. set (d := date_part o).
  rewrite week_W_floor. intros H53.
  pose proof (yday_le_year_length d) as Hlen.
  assert (Hwd : 0 <= weekday d < 7) by (unfold weekday; apply Z.mod_pos_bound; lia).
  assert (Hyd : 365 <= _days_before_month (Datetime.year d) (month d) + day d
                /\ weekday d <= 1).
  { destruct (_is_leap (Datetime.year d)); Z.div_mod_to_equations; lia. }
  destruct (yday_last_days d) as (Hm & Hd); [lia|]. repeat split; lia.
Qed.

(** X12: [get_week] never raises a [ValueError]: the digits of [%W] always
    convert, and the fallback date of mode NORMAL is never asked for in
    year 1, whose January 1st is a Monday, so that [datetime.date] is not
    called with year 0.  Whatever is passed as [mode], the call returns
    a week or raises the [TypeError] for the mode. *)
Theorem get_week_never_ValueError (o : DateLikeObject) (mode_arg : option py_value) :
  ((exists wk, get_week o mode_arg = Ok wk)
   \/ raises (get_week o mode_arg) is_TypeError)
  /\ ~ raises (get_week o mode_arg) is_ValueError
  /\ (dl_year o = 1 ->
      get_week o (with_mode NORMAL) = get_week o (with_mode MATCH_YEAR)).
Proof.
  assert (Hmember : forall m, exists wk, get_week o (with_mode m) = Ok wk).
  { intros [].
    - rewrite get_week_NORMAL.
      destruct (Normal_extract_positive o) as (wk & Hk & _). eauto.
    - rewrite get_week_MATCH_YEAR, MatchYear_extract_eq. eauto. }
  assert (Hcases : (exists wk, get_week o mode_arg = Ok wk)
                   \/ exists msg, get_week o mode_arg = Raise (mkExn TypeError msg)).
  { destruct mode_arg as [[| | | |m|]|];
      try (right; eexists; reflexivity); left.
    - apply (Hmember m).
    - apply (Hmember NORMAL). }
  split; [|split].
  - destruct Hcases as [H|(msg & H)]; [left; exact H|].
    right. rewrite H. eexists; split; reflexivity.
  - intros (e & He & Hv).
    destruct Hcases as [(wk & H)|(msg & H)]; rewrite H in He; [discriminate|].
    injection He as <-. discriminate.
  - intros Hy. rewrite get_week_NORMAL, get_week_MATCH_YEAR.
    apply Normal_extract_nonzero.
    pose proof (week_W_year_one (date_part o) Hy). lia.
Qed.

End CalendarWeeks.

(** ** The text of a week *)

Section WeekText.

Lemma string_of_uint_no_space (d : Decimal.uint) :
  has_space (DecimalString.NilEmpty.string_of_uint d) = false.
Proof. induction d; cbn; auto. Qed.

Lemma str_Z_no_space (n : Z) :
  has_space (DecimalString.NilZero.string_of_int (Z.to_int n)) = false.
Proof.
  assert (U : forall d,
             has_space (DecimalString.NilZero.string_of_uint d) = false)
    by (intros []; try reflexivity; apply string_of_uint_no_space).
  destruct (Z.to_int n); cbn; auto.
Qed.

Lemma str_Z_inj (a b : Z) :
  DecimalString.NilZero.string_of_int (Z.to_int a)
  = DecimalString.NilZero.string_of_int (Z.to_int b) ->
  a = b.
Proof.
  intros H.
  assert (R : forall z,
             DecimalString.NilZero.int_of_string
               (DecimalString.NilZero.string_of_int (Z.to_int z))
             = Some (Z.to_int z)).
  { intros z. apply DecimalString.NilZero.isi; destruct z; cbn; try discriminate;
      intros [= E]; exact (DecimalPos.Unsigned.to_uint_nonnil _ E). }
  pose proof (R a) as Ra. rewrite H, R in Ra. injection Ra as E.
  rewrite <- (DecimalZ.of_to a), <- (DecimalZ.of_to b). now rewrite E.
Qed.

(** Texts without blanks, each followed by a blank, can be told apart. *)
Lemma app_space_inj (s1 s2 r1 r2 : string) :
  has_space s1 = false -> has_space s2 = false ->
  (s1 ++ String " " r1 = s2 ++ String " " r2)%string ->
  s1 = s2 /\ r1 = r2.
Proof.
  revert s2. induction s1 as [|c s1 IH]; intros [|c' s2]; cbn; intros H1 H2 E.
  - injection E as ->. auto.
  - injection E as <- _. apply orb_false_iff in H2. destruct H2 as [H2 _].
    discriminate.
  - injection E as -> _. apply orb_false_iff in H1. destruct H1 as [H1 _].
    discriminate.
  - injection E as -> E. apply orb_false_iff in H1, H2.
    destruct (IH s2 (proj2 H1) (proj2 H2) E) as (-> & ->). auto.
Qed.

(** X7: The text of a week determines the week: two weeks print the same
    only if they have the same number and the same year. *)
Theorem Week_str_injective (a b : Week) :
  Week__str__ a = Week__str__ b <-> a = b.
Proof.
  split; [|intros ->; reflexivity].
  unfold Week__str__. intros E.
  apply app_space_inj in E; try apply str_Z_no_space.
  destruct E as (Ew & E). apply str_Z_inj in Ew.
  cbn in E. injection E as E.
  apply app_space_inj in E; try apply str_Z_no_space.
  destruct E as (Ey & _). apply str_Z_inj in Ey.
  now apply Week_eq.
Qed.

End WeekText.

(** ** More on parsing with several formats *)

Section DateParserMore.

Variable arrow_get : option string -> string -> result Arrow.
Variable arrow_format : Arrow -> string -> string.

Lemma parse_date_loop_app_failed (s : option string) (fs gs : list string) :
  Forall (parse_fails arrow_get s) fs ->
  parse_date_loop arrow_get s (fs ++ gs)
  = (fs ++ fst (parse_date_loop arrow_get s gs),
     snd (parse_date_loop arrow_get s gs)).
Proof.
  induction 1 as [|g fs (e & Hg & Hv) _ IH]; cbn.
  - now destruct (parse_date_loop arrow_get s gs).
  - rewrite Hg, Hv, IH. reflexivity.
Qed.

(** X8: [normalize_date] returns [None] in one case only: a [None] input
    with empty input allowed.  A [None] input that is not allowed is
    handed to the parser like a string. *)
Theorem normalize_date_None_iff
        (s : option string) (input_formats : DateFormats)
        (output_format : string) (allow_empty : bool) :
  normalize_date arrow_get arrow_format s input_formats output_format allow_empty
  = Ok None
  <-> s = None /\ allow_empty = true.
Proof.
  unfold normalize_date. split.
  - destruct s as [str|], allow_empty; cbn [is_None andb]; auto;
      destruct (parse_date arrow_get _ input_formats); cbn; discriminate.
  - intros (-> & ->). reflexivity.
Qed.

(** X9: An exception of [arrow.get] that is not a [ValueError], such as the
    [TypeError] for a [None] input, is not caught: [normalize_date] and
    [parse_date] raise it from the first format on which it occurs and
    the formats after it are not tried. *)
Theorem other_exception_propagates
        (s : option string) (pre post : list string) (f : string) (e : exn)
        (output_format : string) :
  Forall (parse_fails arrow_get s) pre ->
  arrow_get s f = Raise e ->
  is_ValueError e = false ->
  parse_date arrow_get s (FormatList (pre ++ f :: post)) = Raise e
  /\ parse_date_calls arrow_get s (FormatList (pre ++ f :: post)) = pre ++ [f]
  /\ normalize_date arrow_get arrow_format s (FormatList (pre ++ f :: post))
                    output_format false
     = Raise e.
Proof.
  intros Hpre He Hv.
  assert (Hf : ~ parse_fails arrow_get s f).
  { intros (e' & He' & Hv'). congruence. }
  unfold normalize_date, parse_date, parse_date_calls. cbn [ensure_iterable].
  rewrite (parse_date_loop_first arrow_get s pre post f Hpre Hf), He.
  rewrite andb_false_r. auto.
Qed.

(** X10: Candidate lists compose: with the formats of a first list followed
    by those of a second, [parse_date] is [parse_date] on the first list
    when one of its formats does not fail, and otherwise [parse_date] on
    the second list after one call for each format of the first. *)
Theorem parse_date_app (s : option string) (fs gs : list string) :
  (Forall (parse_fails arrow_get s) fs ->
   parse_date arrow_get s (FormatList (fs ++ gs))
   = parse_date arrow_get s (FormatList gs)
   /\ parse_date_calls arrow_get s (FormatList (fs ++ gs))
      = fs ++ parse_date_calls arrow_get s (FormatList gs))
  /\ (~ Forall (parse_fails arrow_get s) fs ->
      parse_date arrow_get s (FormatList (fs ++ gs))
      = parse_date arrow_get s (FormatList fs)
      /\ parse_date_calls arrow_get s (FormatList (fs ++ gs))
         = parse_date_calls arrow_get s (FormatList fs)).
Proof.
  unfold parse_date, parse_date_calls. cbn [ensure_iterable]. split.
  - intros H. rewrite (parse_date_loop_app_failed s fs gs H). auto.
  - intros H.
    destruct (first_not_failing arrow_get s fs)
      as [Hall|(pre & f & post & -> & Hpre & Hf)]; [contradiction|].
    rewrite <- app_assoc. cbn [app].
    rewrite !(parse_date_loop_first arrow_get s pre _ f Hpre Hf). auto.
Qed.

(** X11: The formats handed to [arrow.get] are an initial segment of the
    candidates, so none is tried twice or out of order; a candidate is
    left untried only when the last call did not raise a [ValueError],
    and then the outcome of that call is the outcome of [parse_date]. *)
Theorem parse_date_calls_initial_segment
        (s : option string) (formats : DateFormats) :
  exists rest,
    ensure_iterable formats = parse_date_calls arrow_get s formats ++ rest
    /\ (rest <> [] ->
        exists pre f,
          parse_date_calls arrow_get s formats = pre ++ [f]
          /\ ~ parse_fails arrow_get s f
          /\ parse_date arrow_get s formats = arrow_get s f).
Proof.
  unfold parse_date, parse_date_calls.
  destruct (first_not_failing arrow_get s (ensure_iterable formats))
    as [Hall|(pre & f & post & -> & Hpre & Hf)].
  - exists []. rewrite (parse_date_loop_exhausted arrow_get s _ Hall).
    cbn [fst]. rewrite app_nil_r. split; [reflexivity|]. intros H. now destruct H.
  - exists post. rewrite (parse_date_loop_first arrow_get s pre post f Hpre Hf).
    cbn [fst snd]. rewrite <- app_assoc. split; [reflexivity|].
    intros _. exists pre, f. auto.
Qed.

End DateParserMore.

(** A [None] date that is not allowed to be empty: the stand-in parser
    raises its [TypeError] on the first format and the second one is not
    tried. *)
Lemma other_exception_propagates_sample :
  parse_date sample_arrow_get None (FormatList ([] ++ "YYYY-MM-DD" :: ["YYYY"]))
  = Raise (mkExn TypeError "Cannot parse two arguments of these types.")
  /\ parse_date_calls sample_arrow_get None
                      (FormatList ([] ++ "YYYY-MM-DD" :: ["YYYY"]))
     = [] ++ ["YYYY-MM-DD"]
  /\ normalize_date sample_arrow_get sample_arrow_format None
                    (FormatList ([] ++ "YYYY-MM-DD" :: ["YYYY"])) "YYYY" false
     = Raise (mkExn TypeError "Cannot parse two arguments of these types.").
Proof.
  apply (other_exception_propagates sample_arrow_get sample_arrow_format
           None [] ["YYYY"] "YYYY-MM-DD").
  - constructor.
  - reflexivity.
  - reflexivity.
Defined.
